(** * A shallow embedding of [src/ubc.ts] of facility_booker

    The scanner, the authentication flow and the booking pipeline are
    embedded from the revision of [src/ubc.ts] that exports both
    [checkAvailability] and [bookSlot] (the copy held in
    [src/unnamed/part_003], lines 172-1156, imported by the
    [src/index.ts] of [src/unnamed/part_001]).

    Browser interaction is an interaction tree of Playwright calls with
    JavaScript exceptions; a run feeds the answers of an arbitrary
    environment (the portal, the browser, the clock) to it and records
    the calls made.  Text is ASCII text, as [list ascii] or [string]. *)

From Stdlib Require Import List Bool ZArith Lia Ascii String.
From Stdlib Require Import Sorting.Sorted Sorting.Permutation.
Import ListNotations.
Open Scope Z_scope.

(* ------------------------------------------------------------------ *)
(** ** JavaScript strings and numbers *)

Module Js.

Definition code (c : ascii) : nat := nat_of_ascii c.

(** The ASCII members of [\s] and of the characters [String.prototype.trim]
    removes. *)
Definition is_ws (c : ascii) : bool :=
  match code c with
  | 9 | 10 | 11 | 12 | 13 | 32 => true
  | _ => false
  end%nat.

Definition is_digit (c : ascii) : bool :=
  (Nat.leb 48 (code c) && Nat.leb (code c) 57)%nat.

Definition digit_val (c : ascii) : Z := Z.of_nat (code c) - 48.

(** Line terminators, which [.] of a regular expression does not match. *)
Definition is_line_term (c : ascii) : bool :=
  match code c with 10 | 13 => true | _ => false end%nat.

Definition to_upper (c : ascii) : ascii :=
  if (Nat.leb 97 (code c) && Nat.leb (code c) 122)%nat
  then ascii_of_nat (code c - 32) else c.

Definition to_lower (c : ascii) : ascii :=
  if (Nat.leb 65 (code c) && Nat.leb (code c) 90)%nat
  then ascii_of_nat (code c + 32) else c.

Fixpoint drop_ws (s : list ascii) : list ascii :=
  match s with
  | c :: r => if is_ws c then drop_ws r else s
  | [] => []
  end.

(** [s.trim()] *)
Definition trim_l (s : list ascii) : list ascii :=
  rev (drop_ws (rev (drop_ws s))).

Definition trim (s : string) : string :=
  string_of_list_ascii (trim_l (list_ascii_of_string s)).

(** [s.toLowerCase()] *)
Definition lower (s : string) : string :=
  string_of_list_ascii (map to_lower (list_ascii_of_string s)).

Fixpoint prefixb (p s : list ascii) : bool :=
  match p, s with
  | [], _ => true
  | a :: p', b :: s' => Ascii.eqb a b && prefixb p' s'
  | _ :: _, [] => false
  end.

Fixpoint includes_l (s p : list ascii) : bool :=
  prefixb p s ||
  match s with
  | [] => false
  | _ :: s' => includes_l s' p
  end.

(** [s.includes(p)] and [s.startsWith(p)] *)
Definition includes (s p : string) : bool :=
  includes_l (list_ascii_of_string s) (list_ascii_of_string p).

Definition startsWith (s p : string) : bool :=
  prefixb (list_ascii_of_string p) (list_ascii_of_string s).

(** [s.split(sep)] for a one-character separator. *)
Fixpoint split_l (sep : ascii) (s : list ascii) : list (list ascii) :=
  match s with
  | [] => [[]]
  | c :: r =>
      if Ascii.eqb c sep then [] :: split_l sep r
      else match split_l sep r with
           | w :: ws => (c :: w) :: ws
           | [] => [[c]]
           end
  end.

Definition split (sep : ascii) (s : string) : list string :=
  map string_of_list_ascii (split_l sep (list_ascii_of_string s)).

Fixpoint digits_value (acc : Z) (s : list ascii) : Z :=
  match s with
  | [] => acc
  | c :: r => digits_value (acc * 10 + digit_val c) r
  end.

(** A JavaScript number as the code meets it: an integer, or [NaN]
    ([None]). *)
Definition jsnum := option Z.

(** [Number(s)] on text made of decimal digits: the empty (or blank)
    text is 0, a run of digits its value; any other text is [NaN] here
    (signs, fractions, exponents and radix prefixes are not modelled;
    the code only applies [Number] to [HH:MM] pieces). *)
Definition Number (s : string) : jsnum :=
  let t := trim_l (list_ascii_of_string s) in
  if forallb is_digit t then Some (digits_value 0 t) else None.

Fixpoint take_digits (s : list ascii) : list ascii :=
  match s with
  | c :: r => if is_digit c then c :: take_digits r else []
  | [] => []
  end.

(** [parseInt(s, 10)]: leading white space, an optional sign, then the
    longest run of digits; [NaN] when that run is empty. *)
Definition parseInt (s : string) : jsnum :=
  let t := drop_ws (list_ascii_of_string s) in
  let '(sgn, body) :=
    match t with
    | c :: r => if Ascii.eqb c "-"%char then (-1, r)
                else if Ascii.eqb c "+"%char then (1, r) else (1, t)
    | [] => (1, t)
    end in
  match take_digits body with
  | [] => None
  | ds => Some (sgn * digits_value 0 ds)
  end.

Fixpoint dec_digits (fuel : nat) (n : Z) (acc : list ascii) : list ascii :=
  match fuel with
  | O => acc
  | S f =>
      let acc' := ascii_of_nat (48 + Z.to_nat (n mod 10)) :: acc in
      if n / 10 =? 0 then acc' else dec_digits f (n / 10) acc'
  end.

(** [n.toString()] for an integer or [NaN]. *)
Definition num_to_string (n : jsnum) : string :=
  match n with
  | None => "NaN"
  | Some z =>
      let body := dec_digits (S (Z.to_nat (Z.log2 (Z.abs z)))) (Z.abs z) [] in
      string_of_list_ascii (if z <? 0 then "-"%char :: body else body)
  end.

(** [s.padStart(n, "0")] *)
Definition padStart0 (n : nat) (s : string) : string :=
  string_of_list_ascii
    (repeat "0"%char (n - String.length s) ++ list_ascii_of_string s).

End Js.

(* ------------------------------------------------------------------ *)
(** ** Regular expressions, as backtracking list-of-successes matchers

    A matcher lists its ways of matching a prefix of the input, in the
    order JavaScript's backtracking tries them (greedy quantifiers try
    the longer choice first); [exec] keeps the first one that the rest
    of the pattern accepts, at the leftmost start position. *)

Module Re.
Import Js.

Definition P (A : Type) := list ascii -> list (A * list ascii).

Definition ret {A} (a : A) : P A := fun s => [(a, s)].

Definition pbind {A B} (p : P A) (f : A -> P B) : P B :=
  fun s => flat_map (fun '(a, r) => f a r) (p s).

Definition alt {A} (p q : P A) : P A := fun s => p s ++ q s.

Definition sat (f : ascii -> bool) : P ascii :=
  fun s => match s with
           | c :: r => if f c then [(c, r)] else []
           | [] => []
           end.

(** A character, compared case-insensitively when [ci]. *)
Definition chr (ci : bool) (a : ascii) : P ascii :=
  sat (fun c => if ci then Ascii.eqb (to_upper c) (to_upper a)
                else Ascii.eqb c a).

Fixpoint word (ci : bool) (w : list ascii) : P (list ascii) :=
  match w with
  | [] => ret []
  | a :: w' => pbind (chr ci a) (fun c => pbind (word ci w') (fun r => ret (c :: r)))
  end.

Definition lit (ci : bool) (w : string) : P (list ascii) :=
  word ci (list_ascii_of_string w).

Fixpoint star_n {A} (n : nat) (p : P A) : P (list A) :=
  match n with
  | O => ret []
  | S n' => alt (pbind p (fun a => pbind (star_n n' p) (fun l => ret (a :: l))))
                (ret [])
  end.

(** Greedy [p*], for a [p] that consumes one character. *)
Definition star {A} (p : P A) : P (list A) := fun s => star_n (List.length s) p s.

Definition plus {A} (p : P A) : P (list A) :=
  pbind p (fun a => pbind (star p) (fun l => ret (a :: l))).

Definition digit : P ascii := sat is_digit.
Definition space : P ascii := sat is_ws.

(** [\d{1,2}] *)
Definition digits12 : P (list ascii) :=
  pbind digit (fun a => alt (pbind digit (fun b => ret [a; b])) (ret [a])).

(** [\d{n}] *)
Fixpoint digits_n (n : nat) : P (list ascii) :=
  match n with
  | O => ret []
  | S n' => pbind digit (fun a => pbind (digits_n n') (fun l => ret (a :: l)))
  end.

Definition seq2 (p q : P (list ascii)) : P (list ascii) :=
  pbind p (fun a => pbind q (fun b => ret (a ++ b))).

(** [^ p $]: the first way of matching all of [s]. *)
Definition full {A} (p : P A) (s : list ascii) : option A :=
  match filter (fun '(_, r) => match r with [] => true | _ => false end) (p s) with
  | (a, _) :: _ => Some a
  | [] => None
  end.

(** Unanchored [exec]: the first match at the leftmost position. *)
Fixpoint exec {A} (p : P A) (s : list ascii) : option A :=
  match p s with
  | (a, _) :: _ => Some a
  | [] => match s with [] => None | _ :: s' => exec p s' end
  end.

Definition test {A} (p : P A) (s : list ascii) : bool :=
  match exec p s with Some _ => true | None => false end.

(** [/^(\d{1,2}):(\d{2})\s*(AM|PM)$/i] *)
Definition re_time12 : P (list ascii * list ascii * list ascii) :=
  pbind digits12 (fun hh =>
  pbind (chr true ":") (fun _ =>
  pbind (digits_n 2) (fun mm =>
  pbind (star space) (fun _ =>
  pbind (alt (lit true "AM") (lit true "PM")) (fun ap =>
  ret (hh, mm, ap)))))).

(** [[0-9]{1,2}:[0-9]{2}\s*(?:AM|PM)], returning the text it matched. *)
Definition re_clock : P (list ascii) :=
  seq2 digits12 (seq2 (lit false ":")
    (seq2 (digits_n 2)
      (seq2 (pbind (star space) ret) (alt (lit false "AM") (lit false "PM"))))).

(** [/([0-9]{1,2}:[0-9]{2}\s*(?:AM|PM))\s*-\s*([0-9]{1,2}:[0-9]{2}\s*(?:AM|PM))/] *)
Definition re_range : P (list ascii * list ascii) :=
  pbind re_clock (fun a =>
  pbind (star space) (fun _ =>
  pbind (chr false "-") (fun _ =>
  pbind (star space) (fun _ =>
  pbind re_clock (fun b => ret (a, b)))))).

(** [/^book\s+now$/i] *)
Definition re_book_now : P unit :=
  pbind (lit true "book") (fun _ => pbind (plus space) (fun _ =>
  pbind (lit true "now") (fun _ => ret tt))).

(** [/^\d{4}-\d{2}-\d{2}$/] *)
Definition re_iso_date : P unit :=
  pbind (digits_n 4) (fun _ => pbind (chr false "-") (fun _ =>
  pbind (digits_n 2) (fun _ => pbind (chr false "-") (fun _ =>
  pbind (digits_n 2) (fun _ => ret tt))))).

(** [.*] *)
Definition dots : P (list ascii) := star (sat (fun c => negb (is_line_term c))).

(** [/confirmation|thank you|order.*complete|booking.*confirmed|receipt/i] *)
Definition re_confirm : P (list ascii) :=
  alt (lit true "confirmation")
  (alt (lit true "thank you")
  (alt (seq2 (lit true "order") (seq2 dots (lit true "complete")))
  (alt (seq2 (lit true "booking") (seq2 dots (lit true "confirmed")))
       (lit true "receipt")))).

Definition matches_full {A} (p : P A) (s : string) : bool :=
  match full p (list_ascii_of_string s) with Some _ => true | None => false end.

End Re.

(* ------------------------------------------------------------------ *)
(** ** Time helpers of [ubc.ts] *)

Module Time.
Import Js.
Local Open Scope string_scope.

(** [to24h(time12)]: [time12.trim().match(/^(\d{1,2}):(\d{2})\s*(AM|PM)$/i)],
    then 12 AM becomes 0 and 1-11 PM become 13-23. *)
Definition to24h (time12 : string) : option string :=
  match Re.full Re.re_time12 (trim_l (list_ascii_of_string time12)) with
  | None => None
  | Some (hh, mm, ap) =>
      let h0 := digits_value 0 hh in
      let isPM := String.eqb (string_of_list_ascii (map to_upper ap)) "PM" in
      let h := if Z.eqb h0 12 && negb isPM then 0%Z
               else if negb (Z.eqb h0 12) && isPM then (h0 + 12)%Z else h0 in
      Some (padStart0 2 (num_to_string (Some h)) ++ ":" ++ string_of_list_ascii mm)
  end.

(** [durationMinutes(start24, end24)]:
    [(eh * 60 + em) - (sh * 60 + sm)] over [split(":").map(Number)];
    a missing piece is [undefined], whose arithmetic is [NaN].  The
    arithmetic is exact, which agrees with JavaScript's doubles on the
    two-digit pieces of the [HH:MM] texts [to24h] produces; [Number] is
    read on digit strings only. *)
Definition durationMinutes (start24 end24 : string) : jsnum :=
  let pieces s := map Number (split ":" s) in
  match pieces start24, pieces end24 with
  | Some sh :: Some sm :: _, Some eh :: Some em :: _ =>
      Some ((eh * 60 + em) - (sh * 60 + sm))%Z
  | _, _ => None
  end.

(** The 12-hour label of step 1 of [bookSlot]:
    [const [hour, minute] = request.time_24h.split(":").map(Number)];
    [hour12 = hour === 0 ? 12 : hour > 12 ? hour - 12 : hour];
    [ampm = hour >= 12 ? "PM" : "AM"];
    [`${hour12}:${minute.toString().padStart(2, "0")} ${ampm}`].
    [None] is the [TypeError] of [minute.toString()] when [minute] is
    [undefined] (no [:] in the text). *)
Definition to12h (time_24h : string) : option string :=
  match map Number (split ":" time_24h) with
  | hour :: minute :: _ =>
      let hour12 :=
        match hour with
        | Some h => if Z.eqb h 0 then Some 12%Z else if Z.gtb h 12 then Some (h - 12)%Z else Some h
        | None => None
        end in
      let ampm := match hour with
                  | Some h => if Z.geb h 12 then "PM" else "AM"
                  | None => "AM"
                  end in
      Some (num_to_string hour12 ++ ":" ++ padStart0 2 (num_to_string minute)
            ++ " " ++ ampm)
  | _ => None
  end.

End Time.

(* ------------------------------------------------------------------ *)
(** ** Playwright calls, JavaScript exceptions and runs *)

Module Browser.
Local Open Scope string_scope.

(** Browser, context and page handles. *)
Definition handle := nat.

(** Playwright locators, built as the code builds them. *)
Inductive Locator : Type :=
| Css (sel : string)                    (* page.locator(sel) *)
| Sub (l : Locator) (sel : string)      (* l.locator(sel) *)
| Role (role name : string)             (* page.getByRole(role, { name }) *)
| First (l : Locator)                   (* l.first() *)
| Nth (l : Locator) (i : nat)           (* l.nth(i) *)
| HasText (l : Locator) (re : string)   (* l.filter({ hasText: re }) *)
| Or (l m : Locator).                   (* l.or(m) *)

(** The calls the code makes on Playwright, and the clock. *)
Inductive Eff : Type :=
| Launch                                            (* chromium.launch({ headless: true }) *)
| NewContext (b : handle)                           (* browser.newContext() *)
| NewPage (c : handle)                              (* context.newPage() *)
| CloseBrowser (b : handle)                         (* browser.close() *)
| WaitForPage (c : handle)                          (* context.waitForEvent("page") *)
| Goto (p : handle) (url waitUntil : string)        (* page.goto(url, { waitUntil }) *)
| Url (p : handle)                                  (* page.url() *)
| Title (p : handle)                                (* page.title() *)
| WaitForLoadState (p : handle) (state : string) (timeout : option Z)
| WaitForTimeout (p : handle) (ms : Z)
| WaitForURL (p : handle) (pattern : string) (timeout : Z)
| WaitForSelector (p : handle) (sel : string) (timeout : Z)
| WaitForNavigation (p : handle) (waitUntil : string)
| Evaluate (p : handle) (script : string) (arg : option Z)  (* page.evaluate(script, arg) *)
| Count (p : handle) (l : Locator)
| IsVisible (p : handle) (l : Locator) (timeout : option Z)
| IsChecked (p : handle) (l : Locator)
| InnerText (p : handle) (l : Locator)
| GetAttribute (p : handle) (l : Locator) (name : string)
| Click (p : handle) (l : Locator) (force : bool)
| Fill (p : handle) (l : Locator) (value : string)
| WaitFor (p : handle) (l : Locator) (state : string) (timeout : Z)
| LocEvaluate (p : handle) (l : Locator) (script : string)   (* l.evaluate(script) *)
| All (p : handle) (l : Locator)                    (* l.all(), as its length *)
| NowIso.                                           (* new Date().toISOString().slice(0, 10) *)

(** Answers to calls. *)
Inductive Val : Type :=
| VUnit
| VBool (b : bool)
| VNat (n : nat)
| VStr (s : string)
| VOptStr (o : option string)     (* a string or null / undefined *)
| VOptHandle (o : option handle)  (* a page or null *)
| VHandle (h : handle)
| VResult (success : bool) (method : string).  (* { success, method } *)

(** A JavaScript [Error] (Playwright's [TimeoutError] included). *)
Record err := mkErr { message : string }.

(** Programs: an interaction tree of calls whose answer may be an
    exception. *)
Inductive M (A : Type) : Type :=
| Ret (a : A)
| Throw (e : err)
| Call (e : Eff) (k : Val + err -> M A).
Arguments Ret {A} a.
Arguments Throw {A} e.
Arguments Call {A} e k.

Fixpoint bind {A B} (m : M A) (f : A -> M B) : M B :=
  match m with
  | Ret a => f a
  | Throw e => Throw e
  | Call e k => Call e (fun r => bind (k r) f)
  end.

Notation "'let*' x ':=' m 'in' k" := (bind m (fun x => k))
  (at level 200, x binder, m at level 100, right associativity).

(** [try { m } catch (e) { h(e) }] *)
Fixpoint catch {A} (m : M A) (h : err -> M A) : M A :=
  match m with
  | Ret a => Ret a
  | Throw e => h e
  | Call e k => Call e (fun r => catch (k r) h)
  end.

(** [try { m } finally { fin }] *)
Fixpoint finally {A} (m : M A) (fin : M unit) : M A :=
  match m with
  | Ret a => bind fin (fun _ => Ret a)
  | Throw e => bind fin (fun _ => Throw e)
  | Call e k => Call e (fun r => finally (k r) fin)
  end.

(** [promise.catch(() => d)] *)
Definition orElse {A} (m : M A) (d : A) : M A := catch m (fun _ => Ret d).

Definition call (e : Eff) : M Val :=
  Call e (fun r => match r with inl v => Ret v | inr x => Throw x end).

Definition as_bool (v : Val) : bool := match v with VBool b => b | _ => false end.
Definition as_nat (v : Val) : nat := match v with VNat n => n | _ => O end.
Definition as_str (v : Val) : string := match v with VStr s => s | _ => "" end.
Definition as_optstr (v : Val) : option string :=
  match v with VOptStr o => o | VStr s => Some s | _ => None end.
Definition as_opthandle (v : Val) : option handle :=
  match v with VOptHandle o => o | _ => None end.
Definition as_handle (v : Val) : handle := match v with VHandle h => h | _ => O end.

Definition call_unit (e : Eff) : M unit := let* _ := call e in Ret tt.
Definition call_bool (e : Eff) : M bool := let* v := call e in Ret (as_bool v).
Definition call_nat (e : Eff) : M nat := let* v := call e in Ret (as_nat v).
Definition call_str (e : Eff) : M string := let* v := call e in Ret (as_str v).
Definition call_optstr (e : Eff) : M (option string) :=
  let* v := call e in Ret (as_optstr v).
Definition call_handle (e : Eff) : M handle := let* v := call e in Ret (as_handle v).

Fixpoint Locator_eqb (a b : Locator) : bool :=
  match a, b with
  | Css s, Css t => String.eqb s t
  | Sub l s, Sub m t => Locator_eqb l m && String.eqb s t
  | Role r n, Role r' n' => String.eqb r r' && String.eqb n n'
  | First l, First m => Locator_eqb l m
  | Nth l i, Nth m j => Locator_eqb l m && Nat.eqb i j
  | HasText l r, HasText m r' => Locator_eqb l m && String.eqb r r'
  | Or l l', Or m m' => Locator_eqb l m && Locator_eqb l' m'
  | _, _ => false
  end.

(** Outcomes of a program: its value, or the exception it throws. *)
Inductive outcome (A : Type) : Type :=
| Ok (a : A)
| Exc (e : err).
Arguments Ok {A} a.
Arguments Exc {A} e.

(** An environment answers a call given the calls made so far (most
    recent first): the portal, the browser and the clock together. *)
Definition Env := list Eff -> Eff -> Val + err.

(** A run returns the outcome and the calls made, most recent first. *)
Fixpoint run {A} (env : Env) (tr : list Eff) (m : M A) : outcome A * list Eff :=
  match m with
  | Ret a => (Ok a, tr)
  | Throw e => (Exc e, tr)
  | Call e k => run env (e :: tr) (k (env tr e))
  end.

End Browser.

(* ------------------------------------------------------------------ *)
(** ** The data model of [ubc.ts] *)

Module Model.

(** [Preferences]; [undefined] is [None].  The request schema accepts
    any JSON number; integral values are modelled. *)
Record Preferences := mkPreferences {
  days_ahead : option Z;
  start_hour : option Z;
  end_hour : option Z;
  min_minutes : option Z;
  indoor_only : option bool;
  locations : option (list string);
  dates : option (list string)
}.

Definition no_preferences : Preferences :=
  mkPreferences None None None None None None None.

(** [Slot]; [minutes] is a JavaScript number ([None] is [NaN]),
    [deep_link] is [string | null]. *)
Record Slot := mkSlot {
  date_iso : string;
  time_24h : string;
  minutes : Js.jsnum;
  location : string;
  deep_link : option string
}.

End Model.

Module Booking.

Record BookingRequest := mkBookingRequest {
  facility_url : string;
  time_24h : string;
  duration_hours : Z;
  num_people : Z
}.

Record BookedSlot := mkBookedSlot {
  time : string;
  duration : Z;
  location : string
}.

Record BookingResult := mkBookingResult {
  success : bool;
  confirmation_number : option string;
  message : string;
  booked_slot : option BookedSlot
}.

(** [{ success: false, message }] *)
Definition failure (msg : string) : BookingResult :=
  mkBookingResult false None msg None.

End Booking.

(* ------------------------------------------------------------------ *)
(** ** [ubc.ts]

    Calls made only inside the arguments of [console.log] are left out;
    logging itself is not modelled. *)

Module Ubc.
Import Js Browser Model.
Local Open Scope string_scope.

(** Selector text as in the source, where a single quote written here
    stands for the source's double quote. *)
Definition dq (c : ascii) : ascii :=
  if Ascii.eqb c "'"%char then ascii_of_nat 34 else c.
Definition sel (s : string) : string :=
  string_of_list_ascii (map dq (list_ascii_of_string s)).

Definition throw {A} (msg : string) : M A := Throw (mkErr msg).

(** Typed Playwright calls. *)
Definition launch : M handle := call_handle Launch.
Definition newContext (b : handle) : M handle := call_handle (NewContext b).
Definition newPage (c : handle) : M handle := call_handle (NewPage c).
Definition closeBrowser (b : handle) : M unit := call_unit (CloseBrowser b).
Definition waitForPage (c : handle) : M (option handle) :=
  let* v := call (WaitForPage c) in Ret (as_opthandle v).
Definition goto (p : handle) (u w : string) : M unit := call_unit (Goto p u w).
Definition url (p : handle) : M string := call_str (Url p).
Definition waitForLoadState (p : handle) (st : string) (t : option Z) : M unit :=
  call_unit (WaitForLoadState p st t).
Definition waitForTimeout (p : handle) (ms : Z) : M unit :=
  call_unit (WaitForTimeout p ms).
Definition isVisible (p : handle) (l : Locator) (t : option Z) : M bool :=
  call_bool (IsVisible p l t).
Definition count (p : handle) (l : Locator) : M nat := call_nat (Count p l).
Definition innerText (p : handle) (l : Locator) : M string := call_str (InnerText p l).
Definition getAttribute (p : handle) (l : Locator) (a : string) : M (option string) :=
  call_optstr (GetAttribute p l a).
Definition click (p : handle) (l : Locator) (force : bool) : M unit :=
  call_unit (Click p l force).
Definition fill (p : handle) (l : Locator) (v : string) : M unit :=
  call_unit (Fill p l v).
Definition waitFor (p : handle) (l : Locator) (st : string) (t : Z) : M unit :=
  call_unit (WaitFor p l st t).
Definition nowIso : M string := call_str NowIso.

(** [x || ""] for an optional string. *)
Definition or_empty (o : option string) : string :=
  match o with Some s => s | None => "" end.

Definition DEFAULT_BASE_URL : string :=
  "https://ubc.perfectmind.com/24063/Clients/BookMe4FacilityList/List?calendarId=e65c1527-c4f8-4316-b6d6-3b174041f00e&widgetId=c7c36ee3-2494-4de2-b2cb-d50a86487656&embed=False&singleCalendarWidget=true".

Section Portal.

(** [process.env.UBC_BASE_URL], [process.env.UBC_USER], [process.env.UBC_PASS]. *)
Variable UBC_BASE_URL UBC_USER UBC_PASS : option string.
(** [new URL(href, base).toString()], or its [TypeError]. *)
Variable newURL_href : string -> string -> string + err.
(** [new URL(u).searchParams.get("returnUrl")] ([None] is [null]), or the
    [TypeError] of [new URL(u)]. *)
Variable returnUrl_param : string -> option string + err.
(** [decodeURIComponent(s)], or its [URIError]. *)
Variable decodeURIComponent : string -> string + err.
(** [a.localeCompare(b)], as its sign. *)
Variable localeCompare : string -> string -> Z.

Definition BASE_URL : string :=
  match UBC_BASE_URL with Some u => u | None => DEFAULT_BASE_URL end.

Definition lift {A} (r : A + err) : M A :=
  match r with inl a => Ret a | inr e => Throw e end.

(** *** LOGIN FLOW *)

Definition loginButton : Locator := First (Css "text=Login").

Definition cwl_candidates : list Locator :=
  [ Role "button" "/cwl login/i";
    Role "link" "/cwl login/i";
    Css (sel "a:has(img[alt*='CWL'])");
    Sub (Css (sel "img[alt*='CWL']")) "xpath=ancestor::a[1]" ].

(** [for (const cand of candidates) { const first = cand.first();
    if (await first.isVisible().catch(() => false)) { cwlButton = first; break; } }] *)
Fixpoint firstVisible (p : handle) (cands : list Locator) : M (option Locator) :=
  match cands with
  | [] => Ret None
  | c :: cs =>
      let* v := orElse (isVisible p (First c) None) false in
      if v then Ret (Some (First c)) else firstVisible p cs
  end.

Definition usernameLocator : Locator :=
  Css (sel "input[name='username'], #username, input[id*='Login'], input[id*='User']").
Definition passwordLocator : Locator :=
  Css (sel "input[name='password'], #password, input[type='password']").
Definition submitButton : Locator := First (Role "button" "/login|sign in|submit/i").

(** [Promise.all([context.waitForEvent("page").catch(() => null), l.click()])]:
    the page listener is taken first, then the click; a failed click
    rejects the whole. *)
Definition clickMaybeNewPage (context p : handle) (l : Locator) : M (option handle) :=
  let* maybe := orElse (waitForPage context) None in
  let* _ := click p l false in
  Ret maybe.

Definition ensureLoggedIn (context page : handle) : M handle :=
  let* loginVisible := orElse (isVisible page loginButton None) false in
  if negb loginVisible then Ret page else
  let* maybeNewPage := clickMaybeNewPage context page loginButton in
  let authPage := match maybeNewPage with Some p => p | None => page end in
  let* _ := waitForLoadState authPage "domcontentloaded" None in
  let* cwlButton := firstVisible authPage cwl_candidates in
  let* authPage :=
    match cwlButton with
    | Some b =>
        let* maybeCwlPage := clickMaybeNewPage context authPage b in
        let authPage := match maybeCwlPage with Some p => p | None => authPage end in
        let* _ := waitForLoadState authPage "domcontentloaded" None in
        Ret authPage
    | None => Ret authPage
    end in
  let user := or_empty UBC_USER in
  let pass := or_empty UBC_PASS in
  if String.eqb user "" || String.eqb pass "" then
    throw "UBC_USER and UBC_PASS must be set in environment"
  else
  let* _ := waitFor authPage usernameLocator "visible" 60000 in
  let* _ := waitFor authPage passwordLocator "visible" 60000 in
  let* _ := fill authPage usernameLocator user in
  let* _ := fill authPage passwordLocator pass in
  let* _ := click authPage submitButton false in
  let* _ := waitForLoadState authPage "networkidle" (Some 60000) in
  let baseNoQuery := hd "" (split "?"%char BASE_URL) in
  let* u := url authPage in
  let* _ := if negb (startsWith u baseNoQuery)
            then goto authPage BASE_URL "networkidle" else Ret tt in
  Ret authPage.

(** *** SCHEDULER PARSING *)

Definition bookNowSpans : Locator :=
  HasText (Css "#scheduler .k-event-template.facility-booking-slot span") "/Book Now/i".

(** Names of the scripts run in the page. *)
Definition script_isAvailable : string :=
  "closest('.facility-booking-slot, .k-event-template, [class*=event]') has no unavailable class, is shown, takes pointer events, is not disabled".
Definition script_dataDate : string :=
  "closest('[data-date]').getAttribute('data-date') if it is \d{4}-\d{2}-\d{2}, else ''".

Definition num_lt (a : jsnum) (b : Z) : bool :=
  match a with Some x => Z.ltb x b | None => false end.
Definition num_ge (a : jsnum) (b : Z) : bool :=
  match a with Some x => Z.geb x b | None => false end.

(** The preference tests of [extractSlotsFromScheduler], the hour being
    [parseInt(start24.split(":")[0], 10)]; [true] is [continue]. *)
Definition start_hour_of (start24 : string) : jsnum :=
  parseInt (hd "" (split ":"%char start24)).

(** The body of the loop of [extractSlotsFromScheduler] for span [i];
    [None] is [continue], [Some slot] is [slots.push(slot)]. *)
Definition extractSpan (page : handle) (prefs : Preferences) (courtLabel : string)
    (i : nat) : M (option Slot) :=
  let span := Nth bookNowSpans i in
  let* isVis := orElse (isVisible page span None) false in
  if negb isVis then Ret None else
  let* txt := orElse (innerText page span) "" in
  let textContent := trim txt in
  if negb (Re.matches_full Re.re_book_now textContent) then Ret None else
  let* isAvailable := call_bool (LocEvaluate page span script_isAvailable) in
  if negb isAvailable then Ret None else
  let* title := getAttribute page span "title" in
  let titleAttr := or_empty title in
  match Re.exec Re.re_range (list_ascii_of_string titleAttr) with
  | None => Ret None
  | Some (m1, m2) =>
  match Time.to24h (string_of_list_ascii m1), Time.to24h (string_of_list_ascii m2) with
  | Some start24, Some end24 =>
      let mins := Time.durationMinutes start24 end24 in
      let h := start_hour_of start24 in
      if match start_hour prefs with Some sh => num_lt h sh | None => false end
      then Ret None else
      if match end_hour prefs with Some eh => num_ge h eh | None => false end
      then Ret None else
      if match min_minutes prefs with Some mm => num_lt mins mm | None => false end
      then Ret None else
      let* dateIso := call_str (LocEvaluate page span script_dataDate) in
      let* date_iso :=
        if negb (String.eqb dateIso "") && Re.matches_full Re.re_iso_date dateIso
        then Ret dateIso else nowIso in
      let* u := url page in
      Ret (Some (mkSlot date_iso start24 mins courtLabel (Some u)))
  | _, _ => Ret None
  end
  end.

Fixpoint extractLoop (page : handle) (prefs : Preferences) (courtLabel : string)
    (i remaining : nat) : M (list Slot) :=
  match remaining with
  | O => Ret []
  | S r =>
      let* o := extractSpan page prefs courtLabel i in
      let* rest := extractLoop page prefs courtLabel (S i) r in
      Ret (match o with Some s => s :: rest | None => rest end)
  end.

Definition extractSlotsFromScheduler (page : handle) (prefs : Preferences)
    (courtLabel : string) : M (list Slot) :=
  let* cnt := count page bookNowSpans in
  extractLoop page prefs courtLabel 0 cnt.

(** *** COURT LIST SCANNING *)

Definition chooseButtons : Locator :=
  Css (sel "a.pm-confirm-button.desktop-details:has-text('Choose')").

Definition scanCourt (page : handle) (prefs : Preferences) (i : nat) : M (list Slot) :=
  let button := Nth chooseButtons i in
  let* courtLabel :=
    catch
      (let facilityItem :=
         First (Sub button "xpath=ancestor::div[contains(@class,'facility-item')]") in
       let* v := orElse (isVisible page facilityItem None) false in
       if v then
         let heading := First (Sub facilityItem ".facility-details h2") in
         let* hv := orElse (isVisible page heading None) false in
         if hv then
           let* text := innerText page heading in
           let text := trim text in
           Ret (if String.eqb text "" then "Court " ++ num_to_string (Some (Z.of_nat (S i))) else text)
         else Ret ("Court " ++ num_to_string (Some (Z.of_nat (S i))))
       else Ret ("Court " ++ num_to_string (Some (Z.of_nat (S i)))))
      (fun _ => Ret ("Court " ++ num_to_string (Some (Z.of_nat (S i))))) in
  let* href := getAttribute page button "href" in
  let* facilityUrl :=
    match href with
    | Some h => if String.eqb h "" then
                  let* _ := call_unit (WaitForNavigation page "networkidle") in
                  let* _ := click page button false in
                  url page
                else lift (newURL_href h BASE_URL)
    | None =>
        let* _ := call_unit (WaitForNavigation page "networkidle") in
        let* _ := click page button false in
        url page
    end in
  let* _ := goto page facilityUrl "networkidle" in
  let* courtLabel :=
    catch
      (let facilityNameHeading := First (Css "h1.facility-name") in
       let* v := orElse (isVisible page facilityNameHeading (Some 5000)) false in
       if v then
         let* extracted := innerText page facilityNameHeading in
         let extracted := trim extracted in
         Ret (if String.eqb extracted "" then courtLabel else extracted)
       else Ret courtLabel)
      (fun _ => Ret courtLabel) in
  let* _ := orElse (count page (Css (sel "#scheduler tr[role='row'], #scheduler .k-scheduler-row"))) O in
  let* slotsHere := extractSlotsFromScheduler page prefs courtLabel in
  let* _ := goto page BASE_URL "networkidle" in
  Ret slotsHere.

Fixpoint scanLoop (page : handle) (prefs : Preferences) (i remaining : nat) : M (list Slot) :=
  match remaining with
  | O => Ret []
  | S r =>
      let* here := scanCourt page prefs i in
      let* rest := scanLoop page prefs (S i) r in
      Ret (List.app here rest)
  end.

Definition scanCourtsAndSlots (context page : handle) (prefs : Preferences) : M (list Slot) :=
  let* cnt := count page chooseButtons in
  scanLoop page prefs 0 (Nat.min cnt 10).

(** *** PUBLIC API: [checkAvailability] *)

(** The comparator of [slots.sort]:
    [a.date_iso === b.date_iso ? a.time_24h.localeCompare(b.time_24h)
                               : a.date_iso.localeCompare(b.date_iso)]. *)
Definition slotCompare (a b : Slot) : Z :=
  if String.eqb (date_iso a) (date_iso b)
  then localeCompare (time_24h a) (time_24h b)
  else localeCompare (date_iso a) (date_iso b).

(** [Array.prototype.sort] is stable; for a consistent comparator its
    result is the one of this insertion sort, which places each element
    after every element it does not precede. *)
Fixpoint insertSlot (x : Slot) (l : list Slot) : list Slot :=
  match l with
  | [] => [x]
  | y :: l' => if Z.ltb (slotCompare x y) 0 then x :: l else y :: insertSlot x l'
  end.

Definition sortSlots (l : list Slot) : list Slot :=
  fold_left (fun acc x => insertSlot x acc) l [].

(** The fallback stub of [checkAvailability]. *)
Definition stubSlot (prefs : Preferences) (todayIso : string) : Slot :=
  mkSlot todayIso "19:00"
    (Some (match min_minutes prefs with Some m => m | None => 60 end))
    "UBC Tennis Centre – (stubbed)" (Some BASE_URL).

(** The scan and its fallback: sorted real slots, else the stub. *)
Definition scanOrStub (context page : handle) (prefs : Preferences) : M (list Slot) :=
  let* slots := scanCourtsAndSlots context page prefs in
  match slots with
  | _ :: _ => Ret (sortSlots slots)
  | [] => let* todayIso := nowIso in Ret [stubSlot prefs todayIso]
  end.

Definition checkAvailability (prefs : Preferences) : M (list Slot) :=
  let* browser := launch in
  let* context := newContext browser in
  let* page := newPage context in
  finally
    (let* _ := goto page BASE_URL "networkidle" in
     let* page := ensureLoggedIn context page in
     scanOrStub context page prefs)
    (closeBrowser browser).

(** *** BOOKING API: [bookSlot] *)

Import Booking.

Definition facilityNameH1 : Locator := First (Css "h1.facility-name").
Definition reserveButton : Locator :=
  First (Css (sel "button.button-book[name='book-button'], button:has-text('Reserve')")).
Definition script_removeOverlay : string :=
  "document.querySelectorAll('.k-overlay').forEach(el => el.remove())".
Definition script_hideLoading : string :=
  "document.querySelectorAll('.loading-container, .bm-loading-container, #bm-overlay').forEach(el => el.style.display = 'none')".
Definition script_setAttendees : string :=
  "set #number-of-attendees through its kendoNumericTextBox, else its value with input and change events, else the visible formatted input".
Definition script_rowHidden : string := "el.style.display === 'none'".
Definition urlPattern_afterReserve : string :=
  "/BookMe4EventParticipants|Participant|Attendee|portal\.recreation|Login/i".
Definition portalCwlButton : Locator :=
  First (Css (sel "a:has-text('CWL'), button:has-text('CWL'), img[alt*='CWL']")).
Definition portalUsername : Locator :=
  First (Css (sel "input[name='username'], #username, input[type='text'][id*='user']")).
Definition portalPassword : Locator :=
  First (Css (sel "input[name='password'], #password, input[type='password']")).
Definition portalSubmit : Locator :=
  First (Css (sel "button[type='submit'], input[type='submit'], button:has-text('Login'), button:has-text('Sign')")).
Definition altBookButton : Locator :=
  First (Css (sel ".booking-summary button, .booking-summary a, [data-bind*='BookButton'] button")).
Definition attendeeRows : Locator :=
  Css "table tbody tr.bm-selectable-row, #event-attendees tr.bm-selectable-row, .bm-participant-selection tr.bm-selectable-row".
Definition attendeeCheckbox (row : Locator) : Locator :=
  First (Sub row (sel "input[type='checkbox'][id*='IsParticipating']:not(.disabled):not([disabled])")).
Definition nextButtonSelectors : list string :=
  [ ".next-button-container a.bm-button";
    ".next-button-container a";
    ".bm-form-navbar a.bm-button";
    sel "a.bm-button:has-text('Next')";
    sel "a:has(span:text('Next'))";
    sel ".bm-form-navbar a[title='Next']";
    sel "button:has-text('Next')";
    sel "input[type='submit'][value*='Next']" ].
Definition existingCardOption : Locator :=
  First (Css ".org-payment-type:has(.icon-creditcard-visa, .icon-creditcard-mastercard)").
Definition placeOrderButton : Locator :=
  First (Css (sel "button.process-now, button:has-text('Place My Order')")).
Definition errorElement : Locator :=
  First (Css (sel ".error, .alert-danger, .validation-error, [class*='error-message']")).
Definition confirmationLocator : Locator :=
  First (Css (sel "[class*='confirmation-number'], [class*='order-number'], [class*='receipt-number']")).

(** Step 1's search: the first span whose [title] (or [""]) contains the
    12-hour label, both lower-cased. *)
Fixpoint findSpan (page : handle) (time12h : string) (i remaining : nat)
    : M (option Locator) :=
  match remaining with
  | O => Ret None
  | S r =>
      let span := Nth bookNowSpans i in
      let* t := getAttribute page span "title" in
      if includes (lower (or_empty t)) (lower time12h) then Ret (Some span)
      else findSpan page time12h (S i) r
  end.

Definition rowIsDisabled (rowClass : option string) : bool :=
  match rowClass with Some c => includes c "disabled" | None => false end.

(** The first attendee loop: looks for the row labelled "(You)";
    [selectedAttendeeName] is its state, and stays set when that row is
    disabled. *)
Fixpoint youLoop (page : handle) (selected : string) (i remaining : nat) : M string :=
  match remaining with
  | O => Ret selected
  | S r =>
      let row := Nth attendeeRows i in
      let* label := orElse (innerText page (Sub row "label")) "" in
      let* rowClass := orElse (getAttribute page row "class") (Some "") in
      let* isRowHidden := orElse (call_bool (LocEvaluate page row script_rowHidden)) false in
      if isRowHidden then youLoop page selected (S i) r else
      if includes label "(You)" then
        if rowIsDisabled rowClass then youLoop page label (S i) r else
        let checkbox := attendeeCheckbox row in
        let* n := count page checkbox in
        if Nat.ltb 0 n then
          let* isChecked := orElse (call_bool (IsChecked page checkbox)) false in
          let* _ := if isChecked then Ret tt else click page checkbox true in
          Ret label
        else
          let* _ := click page row false in
          Ret label
      else youLoop page selected (S i) r
  end.

(** The fallback attendee loop: the first enabled, shown row with a
    checkbox. *)
Fixpoint fallbackLoop (page : handle) (i remaining : nat) : M string :=
  match remaining with
  | O => Ret ""
  | S r =>
      let row := Nth attendeeRows i in
      let* rowClass := orElse (getAttribute page row "class") (Some "") in
      let isDisabled := rowIsDisabled rowClass in
      let* isRowHidden := orElse (call_bool (LocEvaluate page row script_rowHidden)) false in
      if negb isDisabled && negb isRowHidden then
        let checkbox := attendeeCheckbox row in
        let* n := count page checkbox in
        if Nat.ltb 0 n then
          let* isChecked := orElse (call_bool (IsChecked page checkbox)) false in
          let* _ := if isChecked then Ret tt else click page checkbox true in
          orElse (innerText page (Sub row "label")) "Unknown"
        else fallbackLoop page (S i) r
      else fallbackLoop page (S i) r
  end.

Fixpoint findNextButton (page : handle) (sels : list string) : M (option Locator) :=
  match sels with
  | [] => Ret None
  | s :: ss =>
      let btn := First (Css s) in
      let* v := orElse (isVisible page btn (Some 1000)) false in
      if v then Ret (Some btn) else findNextButton page ss
  end.

(** The debugging dump of the first ten buttons when no Next button is
    found. *)
Fixpoint dumpButtons (page : handle) (l : Locator) (i remaining : nat) : M unit :=
  match remaining with
  | O => Ret tt
  | S r =>
      let* _ := orElse (innerText page (Nth l i)) "" in
      let* _ := orElse (getAttribute page (Nth l i) "href") (Some "") in
      dumpButtons page l (S i) r
  end.

(** The re-authentication interception after Reserve, once the URL names
    the login portal. *)
Definition reauthenticate (page : handle) (newUrl : string) : M unit :=
  let* returnUrl := lift (returnUrl_param newUrl) in
  let* cwlVis := orElse (isVisible page portalCwlButton (Some 5000)) false in
  let* _ := if cwlVis then
              let* _ := click page portalCwlButton false in
              waitForLoadState page "domcontentloaded" None
            else Ret tt in
  let* userVis := orElse (isVisible page portalUsername (Some 10000)) false in
  let* _ := if userVis then
              let user := or_empty UBC_USER in
              let pass := or_empty UBC_PASS in
              let* _ := fill page portalUsername user in
              let* _ := fill page portalPassword pass in
              let* _ := click page portalSubmit false in
              waitForLoadState page "networkidle" (Some 60000)
            else Ret tt in
  let* currentUrlAfterLogin := url page in
  match returnUrl with
  | Some r =>
      if negb (String.eqb r "") && negb (includes currentUrlAfterLogin "BookMe4EventParticipants")
      then let* decodedUrl := lift (decodeURIComponent r) in
           goto page decodedUrl "networkidle"
      else Ret tt
  | None => Ret tt
  end.

(** The retry when the page is still the facility page after Reserve;
    [Some] is an early [return]. *)
Definition retryReserve (page : handle) : M (option BookingResult) :=
  let* u := url page in
  if negb (includes u "BookMe4LandingPages/Facility") then Ret None else
  let* _ := click page reserveButton true in
  let* _ := waitForTimeout page 3000 in
  let* altVis := orElse (isVisible page altBookButton (Some 2000)) false in
  let* _ := if altVis then
              let* _ := call_unit (Evaluate page script_removeOverlay None) in
              let* _ := click page altBookButton true in
              waitForTimeout page 3000
            else Ret tt in
  let* finalUrl := url page in
  if includes finalUrl "BookMe4LandingPages/Facility" then
    let* errorMsg := orElse (innerText page (First (Css ".error, .alert, .validation-error"))) "" in
    if negb (String.eqb errorMsg "")
    then Ret (Some (failure ("Could not proceed with booking: " ++ errorMsg)))
    else Ret (Some (failure "Reserve button click did not navigate to attendee selection page"))
  else Ret None.

(** The [TypeError] of [minute.toString()] on [undefined]. *)
Definition minuteTypeError : string :=
  "Cannot read properties of undefined (reading 'toString')".

(** The start of the [try] block of [bookSlot]: the facility page, the
    login, and the court name. *)
Definition openFacility (request : BookingRequest) (context page : handle)
    : M (handle * string) :=
  let* _ := goto page (facility_url request) "networkidle" in
  let* page := ensureLoggedIn context page in
  let* u := url page in
  let* _ := if negb (includes u "BookMe4LandingPages/Facility")
            then goto page (facility_url request) "networkidle" else Ret tt in
  let* courtName := orElse (innerText page facilityNameH1) "Unknown Court" in
  Ret (page, courtName).

(** Steps 1 to 5 of the [try] block of [bookSlot]. *)
Definition bookSteps (request : BookingRequest) (page : handle) (courtName : string)
    : M BookingResult :=
  (* STEP 1 *)
  let* time12h := match Time.to12h (time_24h request) with
                  | Some t => Ret t
                  | None => throw minuteTypeError
                  end in
  let* spanCount := count page bookNowSpans in
  let* targetSpan := findSpan page time12h 0 spanCount in
  match targetSpan with
  | None => Ret (failure ("Could not find available slot at " ++ time_24h request
                          ++ " (" ++ time12h ++ ")"))
  | Some span =>
  let* _ := click page span false in
  let* _ := waitForTimeout page 2000 in
  (* STEP 2 *)
  let* reserveVis := orElse (isVisible page reserveButton (Some 10000)) false in
  if negb reserveVis then Ret (failure "Reserve button not found after clicking Book Now") else
  let* _ := catch (waitFor page (Css ".k-overlay") "hidden" 5000)
              (fun _ => call_unit (Evaluate page script_removeOverlay None)) in
  let* _ := catch (waitFor page (Css ".loading-container, .bm-loading-container, #bm-overlay") "hidden" 3000)
              (fun _ => call_unit (Evaluate page script_hideLoading None)) in
  let numAttendees := if Z.eqb (num_people request) 0 then 2 else num_people request in
  let* _setAttendeesResult := call (Evaluate page script_setAttendees (Some numAttendees)) in
  let* _ := waitForTimeout page 1000 in
  let* _summaryText := orElse (innerText page (Css ".booking-summary")) "" in
  let* _currentUrl := url page in
  let* _ := call_unit (Evaluate page script_removeOverlay None) in
  let* _ := click page reserveButton true in
  let* _ := orElse (call_unit (WaitForURL page urlPattern_afterReserve 15000)) tt in
  let* _ := orElse (waitForLoadState page "networkidle" (Some 15000)) tt in
  let* _ := waitForTimeout page 2000 in
  let* newUrl := url page in
  let* _ := if includes newUrl "portal.recreation.ubc.ca" || includes newUrl "Login"
            then reauthenticate page newUrl else Ret tt in
  let* stuck := retryReserve page in
  match stuck with
  | Some r => Ret r
  | None =>
  (* STEP 3 *)
  let* _ := orElse (call_unit (WaitForSelector page
              "table tr.bm-selectable-row, #event-attendees, .bm-participant-selection" 15000)) tt in
  let* _pageTitle := orElse (call_str (Title page)) "" in
  let* rowCount := count page attendeeRows in
  let* selected := youLoop page "" 0 rowCount in
  let* selected := if String.eqb selected "" then fallbackLoop page 0 rowCount
                   else Ret selected in
  let* _ := waitForTimeout page 3000 in
  if String.eqb selected "" then
    Ret (failure "Could not select any attendee - none available or all disabled") else
  let* _ := waitForTimeout page 2000 in
  let* nextButton := findNextButton page nextButtonSelectors in
  match nextButton with
  | None =>
      let allSel := Css (sel "a.bm-button, button, input[type='submit']") in
      let* n := call_nat (All page allSel) in
      let* _ := dumpButtons page allSel 0 (Nat.min n 10) in
      Ret (failure "Next button not found on attendee selection page")
  | Some nb =>
  let* _ := click page nb false in
  let* _ := waitForLoadState page "networkidle" (Some 30000) in
  let* _ := waitForTimeout page 2000 in
  (* STEP 4 *)
  let* cardVis := orElse (isVisible page existingCardOption (Some 5000)) false in
  let* _ := if cardVis then
              let* _ := click page existingCardOption false in
              waitForTimeout page 1000
            else Ret tt in
  (* STEP 5 *)
  let* placeVis := orElse (isVisible page placeOrderButton (Some 10000)) false in
  if negb placeVis then Ret (failure "Place My Order button not found") else
  let* _ := click page placeOrderButton false in
  let* _ := waitForLoadState page "networkidle" (Some 60000) in
  let* _ := waitForTimeout page 3000 in
  let* pageText := orElse (innerText page (Css "body")) "" in
  let hasConfirmation := Re.test Re.re_confirm (list_ascii_of_string pageText) in
  let* errorText := orElse (innerText page errorElement) "" in
  if negb (String.eqb errorText "") && negb hasConfirmation then
    Ret (failure ("Booking failed: " ++ errorText)) else
  let* confirmationNumber :=
    orElse (let* t := innerText page confirmationLocator in Ret (Some t)) None in
  Ret (mkBookingResult true confirmationNumber "Booking completed successfully"
         (Some (mkBookedSlot (time_24h request) (duration_hours request * 60)
                             (trim courtName))))
  end
  end
  end.

Definition bookBody (request : BookingRequest) (context page : handle)
    : M BookingResult :=
  let* pc := openFacility request context page in
  bookSteps request (fst pc) (snd pc).

(** [error?.message || "Unknown error"] *)
Definition errorText (e : err) : string :=
  if String.eqb (Browser.message e) "" then "Unknown error" else Browser.message e.

(** [try { ... } catch (error) { return { success: false, message: ... } }] *)
Definition bookPipeline (request : BookingRequest) (context page : handle)
    : M BookingResult :=
  catch (bookBody request context page)
    (fun error => Ret (failure ("Booking failed: " ++ errorText error))).

Definition bookSlot (request : BookingRequest) : M BookingResult :=
  let* browser := launch in
  let* context := newContext browser in
  let* page := newPage context in
  finally (bookPipeline request context page) (closeBrowser browser).

End Portal.
End Ubc.

(* ------------------------------------------------------------------ *)
(** ** The first revision: [src/src/ubc.ts]

    The copy of [src/ubc.ts] kept in [src/src], which the [src/src/index.ts]
    server imports.  Its scanner reads the scheduler table row by row,
    and its [checkAvailability] falls back to a placeholder when the
    scan throws.  It makes the same Playwright calls as the revision
    above, and the same conventions hold. *)

Module UbcSrc.
Import Js Browser Model.
Local Open Scope string_scope.

Section Portal.

(** [env.ubc.baseUrl], [env.ubc.user] and [env.ubc.pass];
    [src/src/config/env.ts] exits when UBC_USER or UBC_PASS is missing
    or empty, so both are strings. *)
Variable baseUrl : option string.
Variable user pass : string.
(** [new URL(href, base).toString()], or its [TypeError]. *)
Variable newURL_href : string -> string -> string + err.

Definition BASE_URL : string :=
  match baseUrl with Some u => u | None => Ubc.DEFAULT_BASE_URL end.

(** *** LOGIN FLOW *)

Definition loginButton : Locator :=
  First (Or (Role "button" "/login/i") (Role "link" "/login/i")).

(** [for (const candidate of cwlButtonCandidates)
    { if (await candidate.isVisible().catch(() => false)) { cwlButton = candidate; break; } }] *)
Fixpoint firstVisible (p : handle) (cands : list Locator) : M (option Locator) :=
  match cands with
  | [] => Ret None
  | c :: cs =>
      let* v := orElse (Ubc.isVisible p c None) false in
      if v then Ret (Some c) else firstVisible p cs
  end.

Definition usernameLocator : Locator :=
  Css (Ubc.sel "input[name='username'], #username, input[id*='Login'], input[id*='User'], input[name='j_username']").
Definition passwordLocator : Locator :=
  Css (Ubc.sel "input[name='password'], #password, input[type='password'], input[name='j_password']").

(** [waitFor({ timeout: 60000 })] waits for Playwright's default state,
    ["visible"]. *)
Definition ensureLoggedIn (context page : handle) : M handle :=
  let* loginVisible := orElse (Ubc.isVisible page loginButton None) false in
  if negb loginVisible then Ret page else
  let* maybeNewPage := Ubc.clickMaybeNewPage context page loginButton in
  let authPage := match maybeNewPage with Some p => p | None => page end in
  let* _ := Ubc.waitForLoadState authPage "domcontentloaded" None in
  let* cwlButton := firstVisible authPage Ubc.cwl_candidates in
  let* authPage :=
    match cwlButton with
    | Some b =>
        let* maybeCwlPage := Ubc.clickMaybeNewPage context authPage b in
        let authPage := match maybeCwlPage with Some p => p | None => authPage end in
        let* _ := Ubc.waitForLoadState authPage "domcontentloaded" None in
        Ret authPage
    | None => Ret authPage
    end in
  let* _ := Ubc.waitFor authPage usernameLocator "visible" 60000 in
  let* _ := Ubc.waitFor authPage passwordLocator "visible" 60000 in
  let* _ := Ubc.fill authPage usernameLocator user in
  let* _ := Ubc.fill authPage passwordLocator pass in
  let* _ := Ubc.click authPage Ubc.submitButton false in
  let* _ := Ubc.waitForLoadState authPage "networkidle" (Some 60000) in
  let baseNoQuery := hd "" (split "?"%char BASE_URL) in
  let* u := Ubc.url authPage in
  let* _ := if negb (startsWith u baseNoQuery)
            then Ubc.goto authPage BASE_URL "networkidle" else Ret tt in
  Ret authPage.

(** *** COURT & SLOT SCANNING HELPERS *)

(** [text.split("\n").map((t) => t.trim()).filter(Boolean)[0] ?? ""] *)
Definition firstLine (text : string) : string :=
  match filter (fun l => negb (String.eqb l "")) (map trim (split "010"%char text)) with
  | l :: _ => l
  | [] => ""
  end.

Definition inferCourtName (page : handle) (chooseButton : Locator) : M string :=
  catch
    (let card := Sub chooseButton "xpath=ancestor::div[1]" in
     let* t := Ubc.innerText page card in
     let text := trim t in
     let firstLine := firstLine text in
     Ret (if String.eqb firstLine "" then "Unknown court" else firstLine))
    (fun _ => Ret "Unknown court").

Definition getDesiredMinutes (prefs : Preferences) : Z :=
  let requested := match min_minutes prefs with Some m => m | None => 60 end in
  if Z.leb requested 60 then 60 else 120.

Definition num_eqb (a : jsnum) (b : Z) : bool :=
  match a with Some x => Z.eqb x b | None => false end.
Definition num_add (a : jsnum) (b : Z) : jsnum :=
  match a with Some x => Some (x + b) | None => None end.

(** [raw.trim().match(/(\d{1,2}):(\d{2})\s*(AM|PM)/i)], unanchored. *)
Definition parseTimeFromText (raw : string) : option string :=
  let text := trim raw in
  if String.eqb text "" then None else
  match Re.exec Re.re_time12 (list_ascii_of_string text) with
  | None => None
  | Some (h, mm, ap) =>
      let hour := parseInt (string_of_list_ascii h) in
      let minute := string_of_list_ascii mm in
      let ampm := string_of_list_ascii (map to_upper ap) in
      let hour := if String.eqb ampm "PM" && negb (num_eqb hour 12)
                  then num_add hour 12 else hour in
      let hour := if String.eqb ampm "AM" && num_eqb hour 12 then Some 0 else hour in
      Some (padStart0 2 (num_to_string hour) ++ ":" ++ minute)
  end.

Definition tables : Locator := Css "table".

(** [/8:00 AM|9:00 AM|10:00 PM|Bookable 24hrs in advance/i] *)
Definition re_grid : Re.P (list ascii) :=
  Re.alt (Re.lit true "8:00 AM")
  (Re.alt (Re.lit true "9:00 AM")
  (Re.alt (Re.lit true "10:00 PM") (Re.lit true "Bookable 24hrs in advance"))).

(** The search for the scheduler table; [Some t] is [gridTable = t; break]. *)
Fixpoint findGridTable (page : handle) (i remaining : nat) : M (option Locator) :=
  match remaining with
  | O => Ret None
  | S r =>
      let t := Nth tables i in
      let* txt := orElse (Ubc.innerText page t) "" in
      let snippet := firstn 500 (list_ascii_of_string txt) in
      if Re.test re_grid snippet then Ret (Some t) else findGridTable page (S i) r
  end.

Definition clickable : Locator :=
  Css "button, a, [role='button'], input[type='button'], input[type='submit']".

Fixpoint debugLoop (page : handle) (i remaining : nat) : M unit :=
  match remaining with
  | O => Ret tt
  | S r =>
      let el := Nth clickable i in
      let* _tag := orElse (call_str (LocEvaluate page el "(n) => n.tagName")) "UNKNOWN" in
      let* _role := orElse (Ubc.getAttribute page el "role") None in
      let* _text := orElse (Ubc.innerText page el) "" in
      let* _valueAttr := orElse (Ubc.getAttribute page el "value") None in
      debugLoop page (S i) r
  end.

Definition debugListClickable (page : handle) : M unit :=
  let* count := Ubc.count page clickable in
  debugLoop page 0 (Nat.min count 30).

Definition bookNowInRow (row : Locator) : Locator :=
  Sub row (Ubc.sel "button:has-text('Book Now'), a:has-text('Book Now'), div:has-text('Book Now')").

(** The loop over the rows of the scheduler table; the hour is
    [parseInt(time24h.split(":")[0], 10)], which is [Ubc.start_hour_of]. *)
Fixpoint rowLoop (page : handle) (rows : Locator) (todayIso : string)
    (prefsStart prefsEnd minutes : Z) (courtName : string) (i remaining : nat)
    : M (list Slot) :=
  match remaining with
  | O => Ret []
  | S r =>
      let next := rowLoop page rows todayIso prefsStart prefsEnd minutes courtName (S i) r in
      let row := Nth rows i in
      let timeCell := First (Sub row "th, td") in
      let* t := orElse (Ubc.innerText page timeCell) "" in
      let rawTime := trim t in
      match parseTimeFromText rawTime with
      | None => next
      | Some time24h =>
          if String.eqb time24h "" then next else
          let hh := Ubc.start_hour_of time24h in
          if Ubc.num_lt hh prefsStart || Ubc.num_ge hh prefsEnd then next else
          let* bookNowCount := Ubc.count page (bookNowInRow row) in
          if Nat.eqb bookNowCount 0 then next else
          let* u := Ubc.url page in
          let* rest := next in
          Ret (mkSlot todayIso time24h (Some minutes)
                 (if String.eqb courtName "" then "UBC Tennis Centre – court" else courtName)
                 (Some u) :: rest)
      end
  end.

Definition scanSingleCourtPage (page : handle) (prefs : Preferences) (courtName : string)
    : M (list Slot) :=
  let* _ := orElse (Ubc.waitForTimeout page 2000) tt in
  let* tableCount := Ubc.count page tables in
  let* gridTable := findGridTable page 0 tableCount in
  match gridTable with
  | None =>
      let* _ := debugListClickable page in
      Ret []
  | Some g =>
      let rows := Sub g "tr" in
      let* rowCount := Ubc.count page rows in
      let* todayIso := Ubc.nowIso in
      let prefsStart := match start_hour prefs with Some h => h | None => 0 end in
      let prefsEnd := match end_hour prefs with Some h => h | None => 24 end in
      let minutes := match min_minutes prefs with Some m => m | None => 60 end in
      rowLoop page rows todayIso prefsStart prefsEnd minutes courtName 0 rowCount
  end.

Definition chooseButtons : Locator :=
  Or (Css (Ubc.sel "button:has-text('Choose'), a:has-text('Choose')"))
     (Role "button" "/choose/i").

(** The body of the court loop for court [i]: its slots, and whether
    the return to the court list succeeded ([false] is [break]). *)
Definition scanOneCourt (page : handle) (prefs : Preferences) (i : nat)
    : M (list Slot * bool) :=
  let button := Nth chooseButtons i in
  let* courtName := inferCourtName page button in
  let* courtSlots :=
    catch
      (let* href := Ubc.getAttribute page button "href" in
       let* _ := match href with
                 | Some h =>
                     if String.eqb h "" then Ubc.click page button false else
                     let* facilityUrl := Ubc.lift (newURL_href h BASE_URL) in
                     Ubc.goto page facilityUrl "domcontentloaded"
                 | None => Ubc.click page button false
                 end in
       scanSingleCourtPage page prefs courtName)
      (fun _ => Ret []) in
  let* back := catch (let* _ := Ubc.goto page BASE_URL "domcontentloaded" in Ret true)
                     (fun _ => Ret false) in
  Ret (courtSlots, back).

Fixpoint scanLoop (page : handle) (prefs : Preferences) (i remaining : nat) : M (list Slot) :=
  match remaining with
  | O => Ret []
  | S r =>
      let* hb := scanOneCourt page prefs i in
      let '(courtSlots, back) := hb in
      if back then
        let* rest := scanLoop page prefs (S i) r in
        Ret (List.app courtSlots rest)
      else Ret courtSlots
  end.

Definition scanCourtsAndSlots (page : handle) (prefs : Preferences) : M (list Slot) :=
  let* totalCourts := Ubc.count page chooseButtons in
  if Nat.eqb totalCourts 0 then
    let* _ := debugListClickable page in
    Ret []
  else scanLoop page prefs 0 (Nat.min totalCourts 10).

(** *** PUBLIC ENTRY POINT USED BY /check_now *)

(** [realSlots] is [Some] when the inner [try] returns the scanned slots. *)
Definition checkAvailability (prefs : Preferences) : M (list Slot) :=
  let* browser := Ubc.launch in
  let* context := Ubc.newContext browser in
  let* page := Ubc.newPage context in
  finally
    (let* _ := Ubc.goto page BASE_URL "networkidle" in
     let* page := ensureLoggedIn context page in
     let* realSlots :=
       catch (let* realSlots := scanCourtsAndSlots page prefs in
              Ret (match realSlots with [] => None | _ :: _ => Some realSlots end))
             (fun _ => Ret None) in
     match realSlots with
     | Some realSlots => Ret realSlots
     | None =>
         let* todayIso := Ubc.nowIso in
         Ret [mkSlot todayIso "19:00"
                (Some (match min_minutes prefs with Some m => m | None => 60 end))
                "UBC Tennis Centre – (stubbed)" (Some BASE_URL)]
     end)
    (Ubc.closeBrowser browser).

End Portal.
End UbcSrc.

(* ------------------------------------------------------------------ *)
(** ** The server of [src/src/index.ts]

    The second server of that file (from its line 83), which imports
    [checkAvailability] from [src/src/ubc.ts]. *)

Module Api.
Import Js Browser Model.
Local Open Scope string_scope.

(** JSON bodies of the answers. *)
Inductive Body : Type :=
| BError (error : string) (detail : option string)   (* { error, detail } *)
| BSlots (slots : list Slot).                          (* { slots } *)

Record Response := mkResponse { status : Z; body : Body }.

(** [requireBearer]: [true] is [next()], [false] the 401 answer;
    [authorization] is [req.get("Authorization")]. *)
Definition requireBearer (authorization BOOKER_GPT_TOKEN : option string) : bool :=
  let header := Ubc.or_empty authorization in
  let token := if startsWith header "Bearer "
               then substring 7 (String.length header - 7) header else "" in
  negb (String.eqb token ""
        || negb (match BOOKER_GPT_TOKEN with Some t => String.eqb token t | None => false end)).

Definition in_range (lo hi : Z) (o : option Z) : bool :=
  match o with Some x => Z.leb lo x && Z.leb x hi | None => true end.

(** The bounds of [PreferencesSchema]; the types of its fields are the
    types of [Preferences]. *)
Definition PreferencesSchema (p : Preferences) : bool :=
  in_range 0 14 (days_ahead p) && in_range 0 23 (start_hour p) &&
  in_range 1 24 (end_hour p) && in_range 30 120 (min_minutes p).

Section Server.

(** [process.env.BOOKER_GPT_TOKEN] *)
Variable BOOKER_GPT_TOKEN : option string.
(** What [UbcSrc.checkAvailability] depends on. *)
Variable baseUrl : option string.
Variable user pass : string.
Variable newURL_href : string -> string -> string + err.
(** The [ZodError] that [.parse] throws on a body it rejects. *)
Variable zodError : option Preferences -> err.
(** [String(err)] *)
Variable errString : err -> string.

(** [String(err?.message || err)] *)
Definition errDetail (e : err) : string :=
  if String.eqb (message e) "" then errString e else message e.

(** [POST /check_now]; [body] is the request's [preferences] when its
    fields have the schema's types ([None] is any other body). *)
Definition check_now (authorization : option string) (body : option Preferences)
    : M Response :=
  if negb (requireBearer authorization BOOKER_GPT_TOKEN)
  then Ret (mkResponse 401 (BError "Unauthorized" None)) else
  catch
    (let* preferences :=
       match body with
       | Some p => if PreferencesSchema p then Ret p else Throw (zodError body)
       | None => Throw (zodError body)
       end in
     let* slots := UbcSrc.checkAvailability baseUrl user pass newURL_href preferences in
     Ret (mkResponse 200 (BSlots slots)))
    (fun err => Ret (mkResponse 400 (BError "Invalid request" (Some (errDetail err))))).

End Server.
End Api.

(* ------------------------------------------------------------------ *)
(** * Definitions used to state the properties *)

Module Specs.
Import Js Browser Model Booking Ubc.
Local Open Scope string_scope.

(** The login check of [ensureLoggedIn] finds no visible "Login"
    affordance: [isVisible] answers [false] or fails (which
    [.catch(() => false)] turns into [false]). *)
Definition no_login_visible (env : Env) (page : handle) : Prop :=
  forall tr, match env tr (IsVisible page loginButton None) with
             | inl v => as_bool v = false
             | inr _ => True
             end.

(** A concrete already-authenticated session: every check answers
    [false]. *)
Definition env_logged_in : Env := fun _ _ => inl (VBool false).

(** *** Clock texts *)

(** [String(n).padStart(2, "0")] *)
Definition fmt2 (n : nat) : string := padStart0 2 (num_to_string (Some (Z.of_nat n))).

(** The 24-hour text [HH:MM]. *)
Definition fmt24 (h m : nat) : string := fmt2 h ++ ":" ++ fmt2 m.

(** The 12-hour label [h:mm AM] or [h:mm PM], as the portal writes it. *)
Definition label12 (h m : nat) (pm : bool) : string :=
  num_to_string (Some (Z.of_nat h)) ++ ":" ++ fmt2 m ++ " " ++ (if pm then "PM" else "AM").

(** Spellings [to24h]'s pattern also accepts: a zero-padded hour, no
    space before the suffix, a lower-case suffix. *)
Definition label12_variant (pad sp low : bool) (h m : nat) (pm : bool) : string :=
  (if pad then fmt2 h else num_to_string (Some (Z.of_nat h))) ++ ":" ++ fmt2 m
  ++ (if sp then " " else "")
  ++ (if pm then (if low then "pm" else "PM") else (if low then "am" else "AM")).

(** The wall-clock minute of the day named by a 12-hour label:
    12 AM is midnight, 12 PM is noon. *)
Definition clock12 (h m : nat) (pm : bool) : Z :=
  Z.of_nat ((Nat.modulo h 12 + (if pm then 12 else 0)) * 60 + m).

(** The wall-clock minute of the day named by an [HH:MM] text. *)
Definition clock24 (t : string) : jsnum :=
  match map Number (split ":" t) with
  | Some h :: Some m :: _ => Some (h * 60 + m)%Z
  | _ => None
  end.

Definition check_label (pad sp low : bool) (h m : nat) (pm : bool) : bool :=
  match Time.to24h (label12_variant pad sp low h m pm) with
  | Some t =>
      match clock24 t with Some c => Z.eqb c (clock12 h m pm) | None => false end &&
      match Time.to12h t with Some l => String.eqb l (label12 h m pm) | None => false end
  | None => false
  end.

Definition check_24 (hh mm : nat) : bool :=
  match Time.to12h (fmt24 hh mm) with
  | Some l => match Time.to24h l with
              | Some t => String.eqb t (fmt24 hh mm)
              | None => false
              end
  | None => false
  end.

Definition bools : list bool := [true; false].

(** *** Concrete environments *)

(** [browser.newContext()] rejects; the browser itself launched. *)
Definition ctx_err : err := mkErr "browser.newContext: Target page, context or browser has been closed".

Definition env_context_fails : Env := fun _ e =>
  match e with
  | Launch => inl (VHandle 1%nat)
  | NewContext _ => inr ctx_err
  | _ => inl VUnit
  end.

(** A logged-in portal whose list page has [n] "Choose" buttons and no
    "Book Now" span, on 2026-10-14; with [scan_fails], counting the
    buttons times out. *)
Definition scan_err : err := mkErr "locator.count: Timeout 30000ms exceeded".

Definition env_list (scan_fails : bool) (n : nat) : Env := fun _ e =>
  match e with
  | Launch => inl (VHandle 1%nat)
  | NewContext _ => inl (VHandle 2%nat)
  | NewPage _ => inl (VHandle 3%nat)
  | IsVisible _ _ _ => inl (VBool false)
  | Count _ l => if Locator_eqb l chooseButtons
                 then if scan_fails then inr scan_err else inl (VNat n)
                 else inl (VNat 0)
  | GetAttribute _ _ _ => inl (VOptStr (Some "/24063/Clients/BookMe4LandingPages/Facility?facilityId=1"))
  | Url _ => inl (VStr "https://ubc.perfectmind.com/24063/Clients/BookMe4FacilityList/List")
  | NowIso => inl (VStr "2026-10-14")
  | _ => inl VUnit
  end.

(** *** Orders *)

(** [a] may precede [b] in the sorted list: the comparator of
    [slots.sort] is not positive on them. *)
Definition slot_le (lc : string -> string -> Z) (a b : Slot) : Prop :=
  (slotCompare lc a b <= 0)%Z.

(** The antisymmetry [b.localeCompare(a) = -a.localeCompare(b)]. *)
Definition antisymmetric_compare (lc : string -> string -> Z) : Prop :=
  forall a b, lc b a = (- lc a b)%Z.

(** Code-unit order of strings, which [localeCompare] agrees with on
    [YYYY-MM-DD] and [HH:MM] texts. *)
Definition codeUnitCompare (a b : string) : Z :=
  match String.compare a b with Lt => -1 | Eq => 0 | Gt => 1 end.

(** A portal where the booking goes through: the facility page has two
    "Book Now" spans, 3:00 PM and 7:00 PM; the attendee number cannot be
    set; the wait for the participants URL times out, though the URL has
    changed. *)
Definition facURL : string :=
  "https://ubc.perfectmind.com/24063/Clients/BookMe4LandingPages/Facility?facilityId=1".

Definition clicked_reserve (tr : list Eff) : bool :=
  existsb (fun e => match e with Click _ l true => Locator_eqb l reserveButton | _ => false end) tr.

Definition env_portal : Env := fun tr e =>
  match e with
  | Launch => inl (VHandle 1%nat)
  | NewContext _ => inl (VHandle 2%nat)
  | NewPage _ => inl (VHandle 3%nat)
  | WaitForPage _ => inl (VOptHandle None)
  | Url _ => inl (VStr (if clicked_reserve tr
                        then "https://ubc.perfectmind.com/24063/Menu/BookMe4EventParticipants?x=1"
                        else facURL))
  | IsVisible _ l _ =>
      inl (VBool (Locator_eqb l reserveButton || Locator_eqb l existingCardOption
                  || Locator_eqb l placeOrderButton
                  || Locator_eqb l (First (Css ".next-button-container a.bm-button"))))
  | InnerText _ l =>
      if Locator_eqb l facilityNameH1 then inl (VStr "Court 01 ")
      else if Locator_eqb l (Sub (Nth attendeeRows 0%nat) "label") then inl (VStr "Zed (You)")
      else if Locator_eqb l (Css "body") then inl (VStr "Thank you! Booking confirmed")
      else if Locator_eqb l confirmationLocator then inl (VStr "ABC123")
      else inr (mkErr "Timeout 30000ms exceeded")
  | Count _ l =>
      if Locator_eqb l bookNowSpans then inl (VNat 2%nat) else inl (VNat 1%nat)
  | GetAttribute _ l a =>
      if Locator_eqb l (Nth bookNowSpans 0%nat) then inl (VOptStr (Some "03:00 PM-04:00 PM"))
      else if Locator_eqb l (Nth bookNowSpans 1%nat) then inl (VOptStr (Some "07:00 PM-08:00 PM"))
      else if String.eqb a "class" then inl (VOptStr (Some "bm-selectable-row"))
      else inl (VOptStr None)
  | LocEvaluate _ _ _ => inl (VBool false)
  | IsChecked _ _ => inl (VBool false)
  | Evaluate _ s _ => if String.eqb s script_setAttendees then inl (VResult false "none")
                      else inl VUnit
  | WaitForURL _ _ _ => inr (mkErr "Timeout 15000ms exceeded")
  | _ => inl VUnit
  end.

Definition request_at (t : string) : BookingRequest := mkBookingRequest facURL t 1 2.

(** The browser, its context, its page and its closing all succeed. *)
Definition lifecycle_ok (env : Env) (b c p : handle) : Prop :=
  forall tr, env tr Launch = inl (VHandle b) /\ env tr (NewContext b) = inl (VHandle c) /\
             env tr (NewPage c) = inl (VHandle p) /\ exists v, env tr (CloseBrowser b) = inl v.

(** Every one of the first [n] "Book Now" spans has its [title] read
    without error, and no title contains the label [t12] (both
    lower-cased). *)
Definition no_title_matches (env : Env) (page : handle) (n : nat) (t12 : string) : Prop :=
  forall i tr, (i < n)%nat -> exists v,
    env tr (GetAttribute page (Nth bookNowSpans i) "title") = inl v /\
    includes (lower (or_empty (as_optstr v))) (lower t12) = false.

(** [chromium.launch()] fails; and a portal whose facility page cannot
    be reached. *)
Definition launch_err : err := mkErr "browserType.launch: Executable doesn't exist".

Definition env_launch_fails : Env := fun _ e =>
  match e with Launch => inr launch_err | _ => inl VUnit end.

Definition goto_err : err := mkErr "page.goto: net::ERR_NAME_NOT_RESOLVED".

Definition env_unreachable : Env := fun _ e =>
  match e with Goto _ _ _ => inr goto_err | _ => inl VUnit end.

(** *** Decimal digits *)

Definition dchar (k : nat) : ascii := ascii_of_nat (48 + k).

Definition one_digit_ok (k : nat) : bool :=
  Z.eqb (digits_value 0 [dchar k]) (Z.of_nat k).

Definition two_digits_ok (k1 k2 : nat) : bool :=
  Z.eqb (digits_value 0 [dchar k1; dchar k2]) (Z.of_nat (10 * k1 + k2)) &&
  String.eqb (string_of_list_ascii [dchar k1; dchar k2]) (fmt2 (10 * k1 + k2)).

(** The pieces of an [HH:MM] text, as [durationMinutes] and the hour
    filter read them. *)
Definition fmt24_ok (h m : nat) : bool :=
  match map Number (split ":" (fmt24 h m)) with
  | [Some h'; Some m'] => Z.eqb h' (Z.of_nat h) && Z.eqb m' (Z.of_nat m)
  | _ => false
  end &&
  match start_hour_of (fmt24 h m) with
  | Some h' => Z.eqb h' (Z.of_nat h)
  | None => false
  end.

(** *** Scanned slots *)

(** The slot's [minutes] is the [end - start] of the range read from a
    [title]: both ends are [HH:MM] texts of [to24h]. *)
Definition minutes_from_range (s : Slot) : Prop :=
  exists title m1 m2 sh sm eh em,
    Re.exec Re.re_range (list_ascii_of_string title) = Some (m1, m2) /\
    Time.to24h (string_of_list_ascii m1) = Some (Model.time_24h s) /\
    Model.time_24h s = fmt24 sh sm /\
    Time.to24h (string_of_list_ascii m2) = Some (fmt24 eh em) /\
    minutes s = Some (Z.of_nat (eh * 60 + em) - Z.of_nat (sh * 60 + sm))%Z.

(** A list page with one court whose facility page has one "Book Now"
    span, titled [title], on 2026-10-15. *)
Definition env_one_span (title : string) : Env := fun _ e =>
  match e with
  | Launch => inl (VHandle 1%nat)
  | NewContext _ => inl (VHandle 2%nat)
  | NewPage _ => inl (VHandle 3%nat)
  | IsVisible _ l _ =>
      inl (VBool (match l with Nth l' _ => Locator_eqb l' bookNowSpans | _ => false end))
  | Count _ l => inl (VNat (if Locator_eqb l chooseButtons || Locator_eqb l bookNowSpans
                            then 1 else 0)%nat)
  | InnerText _ _ => inl (VStr "Book Now")
  | LocEvaluate _ _ s =>
      if String.eqb s script_isAvailable then inl (VBool true) else inl (VStr "2026-10-15")
  | GetAttribute _ l a =>
      if String.eqb a "title" then inl (VOptStr (Some title))
      else inl (VOptStr (Some "/24063/Clients/BookMe4LandingPages/Facility?facilityId=1"))
  | Url _ => inl (VStr facURL)
  | NowIso => inl (VStr "2026-10-14")
  | _ => inl VUnit
  end.

(** *** The preference filter *)



(** Evenings from 18:00, of at least an hour; and the same window
    ending at 19:00. *)
Definition prefs_evening (end_h : Z) : Preferences :=
  mkPreferences None (Some 18%Z) (Some end_h) (Some 60%Z) None None None.

(** *** Calls a program makes *)

(** Every call the program can make satisfies [Q], whatever the
    environment answers. *)
Fixpoint allCalls {A} (Q : Eff -> Prop) (m : M A) : Prop :=
  match m with
  | Ret _ | Throw _ => True
  | Call e k => Q e /\ forall r, allCalls Q (k r)
  end.

(** The calls of the debugging listing of [src/src/ubc.ts]: counting the
    clickable elements, and reading one of the first 30 of them. *)
Definition debug_call (page : handle) (e : Eff) : Prop :=
  match e with
  | Count p l => p = page /\ l = UbcSrc.clickable
  | LocEvaluate p l _ | GetAttribute p l _ | InnerText p l =>
      p = page /\ exists i, (i < 30)%nat /\ l = Nth UbcSrc.clickable i
  | _ => False
  end.

Definition not_fill (e : Eff) : Prop :=
  match e with Fill _ _ _ => False | _ => True end.

(** *** Scanned slots of [src/src/ubc.ts] *)

(** The slot's [time_24h] is an [HH:MM] text whose hour lies in
    [[start_hour ?? 0, end_hour ?? 24)], and its [minutes] is
    [min_minutes ?? 60]. *)
Definition src_slot_in_window (prefs : Preferences) (s : Slot) : Prop :=
  exists h m, (h < 112)%nat /\ (m < 100)%nat /\ Model.time_24h s = fmt24 h m /\
    (match start_hour prefs with Some x => x | None => 0 end <= Z.of_nat h
       < match end_hour prefs with Some x => x | None => 24 end)%Z /\
    minutes s = Some (match min_minutes prefs with Some x => x | None => 60 end).

Definition same_date (l : list Slot) : Prop :=
  forall s1 s2, In s1 l -> In s2 l -> date_iso s1 = date_iso s2.

Definition court_location (courtName : string) : string :=
  if String.eqb courtName "" then "UBC Tennis Centre – court" else courtName.

Definition parse_one_ok (k : nat) : bool :=
  match parseInt (string_of_list_ascii [dchar k]) with
  | Some z => Z.eqb z (Z.of_nat k) | None => false
  end.

Definition parse_two_ok (k1 k2 : nat) : bool :=
  match parseInt (string_of_list_ascii [dchar k1; dchar k2]) with
  | Some z => Z.eqb z (Z.of_nat (10 * k1 + k2)) | None => false
  end.

Definition agree_label (pad sp low : bool) (h m : nat) (pm : bool) : bool :=
  match UbcSrc.parseTimeFromText (label12_variant pad sp low h m pm),
        Time.to24h (label12_variant pad sp low h m pm) with
  | Some a, Some b => String.eqb a b
  | _, _ => false
  end.

(** The placeholder of [src/src/ubc.ts]. *)
Definition src_stub (baseUrl : option string) (prefs : Preferences) (today : string) : Slot :=
  mkSlot today "19:00" (Some (match min_minutes prefs with Some m => m | None => 60 end))
    "UBC Tennis Centre – (stubbed)" (Some (UbcSrc.BASE_URL baseUrl)).

(** A logged-in portal on 2026-10-14 whose court list cannot be counted. *)
Definition env_src_count_fails : Env := fun _ e =>
  match e with
  | Launch => inl (VHandle 1%nat)
  | NewContext _ => inl (VHandle 2%nat)
  | NewPage _ => inl (VHandle 3%nat)
  | IsVisible _ _ _ => inl (VBool false)
  | Count _ _ => inr scan_err
  | NowIso => inl (VStr "2026-10-14")
  | _ => inl VUnit
  end.

(** A list page with [n] "Choose" buttons, on which every other call
    fails. *)
Definition env_src_hostile (n : nat) : Env := fun _ e =>
  match e with
  | Count _ l => if Locator_eqb l UbcSrc.chooseButtons then inl (VNat n) else inr scan_err
  | _ => inr goto_err
  end.

(** *** The booking pipeline *)

(** A success carries the booked slot at the requested time, lasting
    [duration_hours * 60] minutes; a failure carries neither a slot nor
    a confirmation number. *)
Definition result_shape (request : BookingRequest) (r : BookingResult) : Prop :=
  if success r then
    Booking.message r = "Booking completed successfully" /\
    exists loc, booked_slot r = Some (mkBookedSlot (time_24h request) (duration_hours request * 60) loc)
  else booked_slot r = None /\ confirmation_number r = None.




End Specs.

(* ------------------------------------------------------------------ *)
(** * Properties *)

(** ** Laws of runs *)

Module RunLaws.
Import Browser.

Lemma run_bind {A B} (env : Env) (m : M A) (f : A -> M B) : forall tr,
  run env tr (bind m f) =
  match run env tr m with
  | (Ok a, tr') => run env tr' (f a)
  | (Exc e, tr') => (Exc e, tr')
  end.
Proof. induction m as [a|e|e k IH]; intros tr; simpl; auto. Qed.

Lemma run_catch {A} (env : Env) (m : M A) (h : err -> M A) : forall tr,
  run env tr (catch m h) =
  match run env tr m with
  | (Ok a, tr') => (Ok a, tr')
  | (Exc e, tr') => run env tr' (h e)
  end.
Proof. induction m as [a|e|e k IH]; intros tr; simpl; auto. Qed.

Lemma run_finally {A} (env : Env) (m : M A) (fin : M unit) : forall tr,
  run env tr (finally m fin) =
  match run env tr m with
  | (Ok a, tr') =>
      match run env tr' fin with
      | (Ok _, tr'') => (Ok a, tr'')
      | (Exc e, tr'') => (Exc e, tr'')
      end
  | (Exc e, tr') =>
      match run env tr' fin with
      | (Ok _, tr'') => (Exc e, tr'')
      | (Exc e', tr'') => (Exc e', tr'')
      end
  end.
Proof.
  induction m as [a|e|e k IH]; intros tr; simpl; auto;
    rewrite run_bind; destruct (run env tr fin) as [[]]; reflexivity.
Qed.

Lemma run_call (env : Env) (e : Eff) tr :
  run env tr (call e) =
  (match env tr e with inl v => Ok v | inr x => Exc x end, e :: tr).
Proof. unfold call; simpl; destruct (env tr e); reflexivity. Qed.

(** Every value a program can return satisfies [P], whatever the
    environment answers. *)
Fixpoint allRet {A} (P : A -> Prop) (m : M A) : Prop :=
  match m with
  | Ret a => P a
  | Throw _ => True
  | Call _ k => forall r, allRet P (k r)
  end.

Lemma allRet_run {A} (P : A -> Prop) (m : M A) :
  allRet P m -> forall env tr a tr', run env tr m = (Ok a, tr') -> P a.
Proof.
  induction m as [b|e|e k IH]; simpl; intros H env tr a tr' R.
  - inversion R; subst; assumption.
  - discriminate.
  - eapply IH; [apply H | exact R].
Qed.

Lemma allRet_weaken {A} (P Q : A -> Prop) (m : M A) :
  (forall a, P a -> Q a) -> allRet P m -> allRet Q m.
Proof. intros HPQ; induction m; simpl; auto. Qed.

Lemma allRet_bind {A B} (P : A -> Prop) (Q : B -> Prop) (m : M A) (f : A -> M B) :
  allRet P m -> (forall a, P a -> allRet Q (f a)) -> allRet Q (bind m f).
Proof. intros Hm Hf; induction m; simpl in *; auto. Qed.

Lemma allRet_bind_any {A B} (Q : B -> Prop) (m : M A) (f : A -> M B) :
  (forall a, allRet Q (f a)) -> allRet Q (bind m f).
Proof. intros Hf; induction m; simpl; auto. Qed.

Lemma allRet_catch {A} (P : A -> Prop) (m : M A) (h : err -> M A) :
  allRet P m -> (forall e, allRet P (h e)) -> allRet P (catch m h).
Proof. intros Hm Hh; induction m; simpl in *; auto. Qed.

Lemma allRet_finally {A} (P : A -> Prop) (m : M A) (fin : M unit) :
  allRet P m -> allRet P (finally m fin).
Proof.
  intros Hm; induction m; simpl in *; auto;
    apply allRet_bind_any; intros; simpl; auto.
Qed.

End RunLaws.

(** ** Claims *)

Module Proofs.
Import Js Browser Model Booking Ubc RunLaws Specs.
Local Open Scope string_scope.

(** C8: on a page with no visible "Login" affordance, [ensureLoggedIn]
    returns that same page after the single visibility check, with no
    navigation, click or fill; run twice in a row, the two runs together
    make only the two visibility checks. *)
Theorem ensureLoggedIn_idempotent U B P (env : Env) context page tr :
  no_login_visible env page ->
  run env tr (ensureLoggedIn U B P context page)
    = (Ok page, IsVisible page loginButton None :: tr) /\
  run env tr (let* p := ensureLoggedIn U B P context page in
              ensureLoggedIn U B P context p)
    = (Ok page, IsVisible page loginButton None
                :: IsVisible page loginButton None :: tr).
Proof.
  intros H.
  assert (E1 : forall tr0, run env tr0 (ensureLoggedIn U B P context page)
                           = (Ok page, IsVisible page loginButton None :: tr0)).
  { intros tr0; unfold ensureLoggedIn, orElse, isVisible, call_bool, call; simpl.
    specialize (H tr0); destruct (env tr0 (IsVisible page loginButton None)) as [v|x];
      simpl; [rewrite H|]; reflexivity. }
  split; [apply E1|].
  rewrite run_bind, E1, E1; reflexivity.
Qed.

(** Witness of C8. *)
Lemma ensureLoggedIn_idempotent_witness :
  no_login_visible env_logged_in 1%nat /\
  run env_logged_in [] (ensureLoggedIn None (Some "u") (Some "p") 0%nat 1%nat)
    = (Ok 1%nat, [IsVisible 1%nat loginButton None]).
Proof.
  assert (H : no_login_visible env_logged_in 1%nat) by (intros tr; reflexivity).
  split; [exact H|].
  exact (proj1 (ensureLoggedIn_idempotent None (Some "u") (Some "p") env_logged_in 0%nat 1%nat [] H)).
Defined.

Lemma forallb_seq (f : nat -> bool) a n :
  forallb f (seq a n) = true -> forall k, (a <= k < a + n)%nat -> f k = true.
Proof.
  intros H k Hk; rewrite forallb_forall in H; apply H, in_seq; lia.
Qed.

Lemma forallb_bools (f : bool -> bool) :
  forallb f bools = true -> forall b, f b = true.
Proof. simpl; intros H [|]; destruct (f true), (f false); auto. Qed.

Lemma all_labels_ok :
  forallb (fun h => forallb (fun m => forallb (fun pm =>
    forallb (fun pad => forallb (fun sp => forallb (fun low =>
      check_label pad sp low h m pm) bools) bools) bools) bools) (seq 0 60)) (seq 1 12)
  = true.
Proof. vm_compute; reflexivity. Qed.

Lemma all_24_ok :
  forallb (fun hh => forallb (fun mm => check_24 hh mm) (seq 0 60)) (seq 0 24) = true.
Proof. vm_compute; reflexivity. Qed.

(** C4: [to24h] maps "12:00 AM" to "00:00", "12:00 PM" to "12:00" and
    "1:00 PM" to "13:00"; every label [h:mm AM/PM] with [h] in [1, 12]
    (in each spelling the pattern accepts) converts to an [HH:MM] text
    naming the same wall-clock minute, which the booking pipeline's
    24-to-12-hour conversion turns back into the label; and that
    conversion is a right inverse of [to24h] on every [HH:MM] with
    [HH < 24] and [MM < 60]. *)
Theorem to24h_round_trip :
  Time.to24h "12:00 AM" = Some "00:00" /\
  Time.to24h "12:00 PM" = Some "12:00" /\
  Time.to24h "1:00 PM" = Some "13:00" /\
  (forall (h m : nat) (pm pad sp low : bool),
      (1 <= h <= 12)%nat -> (m < 60)%nat ->
      exists t, Time.to24h (label12_variant pad sp low h m pm) = Some t /\
                clock24 t = Some (clock12 h m pm) /\
                Time.to12h t = Some (label12 h m pm)) /\
  (forall hh mm : nat, (hh < 24)%nat -> (mm < 60)%nat ->
      exists l, Time.to12h (fmt24 hh mm) = Some l /\
                Time.to24h l = Some (fmt24 hh mm)).
Proof.
  split; [vm_compute; reflexivity|].
  split; [vm_compute; reflexivity|].
  split; [vm_compute; reflexivity|].
  split.
  - intros h m pm pad sp low Hh Hm.
    assert (C : check_label pad sp low h m pm = true).
    { pose proof (forallb_seq _ _ _ all_labels_ok h ltac:(lia)) as H1.
      pose proof (forallb_seq _ _ _ H1 m ltac:(lia)) as H2.
      pose proof (forallb_bools _ H2 pm) as H3.
      pose proof (forallb_bools _ H3 pad) as H4.
      pose proof (forallb_bools _ H4 sp) as H5.
      exact (forallb_bools _ H5 low). }
    unfold check_label in C.
    destruct (Time.to24h (label12_variant pad sp low h m pm)) as [t|]; [|discriminate].
    exists t; split; [reflexivity|].
    apply andb_true_iff in C as [C1 C2].
    destruct (clock24 t) as [c|]; [|discriminate].
    destruct (Time.to12h t) as [l|]; [|discriminate].
    apply Z.eqb_eq in C1; apply String.eqb_eq in C2; subst; split; reflexivity.
  - intros hh mm Hh Hm.
    pose proof (forallb_seq _ _ _ all_24_ok hh ltac:(lia)) as H1.
    pose proof (forallb_seq _ _ _ H1 mm ltac:(lia)) as C.
    unfold check_24 in C.
    destruct (Time.to12h (fmt24 hh mm)) as [l|]; [|discriminate].
    destruct (Time.to24h l) as [t|] eqn:E; [|discriminate].
    apply String.eqb_eq in C; subst; exists l; split; [reflexivity|exact E].
Qed.

(** Witness of C4: 7:30 PM, and 00:05. *)
Lemma to24h_round_trip_witness :
  ((1 <= 7 <= 12)%nat /\ (30 < 60)%nat /\
   exists t, Time.to24h (label12_variant false true false 7 30 true) = Some t /\
             clock24 t = Some (clock12 7 30 true) /\
             Time.to12h t = Some (label12 7 30 true)) /\
  ((0 < 24)%nat /\ (5 < 60)%nat /\
   exists l, Time.to12h (fmt24 0 5) = Some l /\ Time.to24h l = Some (fmt24 0 5)).
Proof.
  split; (split; [lia|split; [lia|]]).
  - exact (proj1 (proj2 (proj2 (proj2 to24h_round_trip))) 7%nat 30%nat true false true false
             ltac:(lia) ltac:(lia)).
  - exact (proj2 (proj2 (proj2 (proj2 to24h_round_trip))) 0%nat 5%nat ltac:(lia) ltac:(lia)).
Defined.

(** *** Resources *)

Lemma finally_closes (env : Env) {A} (m : M A) (b : handle) : forall tr,
  exists rest, snd (run env tr (finally m (closeBrowser b))) = CloseBrowser b :: rest.
Proof.
  induction m as [a|e|e k IH]; intros tr; simpl; auto;
    unfold closeBrowser, call_unit, call; simpl;
    destruct (env tr (CloseBrowser b)); simpl; eauto.
Qed.

(** Once the browser, the context and the page exist, [checkAvailability]
    ends with [browser.close()] whatever happens next. *)
Lemma checkAvailability_closes_after_acquisition U B P nh lc prefs (env : Env) tr b c p :
  env tr Launch = inl (VHandle b) ->
  env (Launch :: tr) (NewContext b) = inl (VHandle c) ->
  env (NewContext b :: Launch :: tr) (NewPage c) = inl (VHandle p) ->
  exists rest, snd (run env tr (checkAvailability U B P nh lc prefs)) = CloseBrowser b :: rest.
Proof.
  intros H1 H2 H3; unfold checkAvailability, launch, newContext, newPage, call_handle, call.
  simpl; rewrite H1; simpl; rewrite H2; simpl; rewrite H3; simpl.
  apply finally_closes.
Qed.

(** C9 (failing input): when [browser.newContext()] rejects, both public
    operations throw having made only the launch and the failed
    [newContext] call: [browser.close()] is never called, for every
    [Preferences] and every [BookingRequest]. *)
Theorem newContext_failure_leaks_browser :
  (forall U B P nh lc prefs,
      run env_context_fails [] (checkAvailability U B P nh lc prefs)
      = (Exc ctx_err, [NewContext 1%nat; Launch])) /\
  (forall U B P ru dc request,
      run env_context_fails [] (bookSlot U B P ru dc request)
      = (Exc ctx_err, [NewContext 1%nat; Launch])) /\
  ~ In (CloseBrowser 1%nat) [NewContext 1%nat; Launch].
Proof.
  split; [|split].
  - intros; reflexivity.
  - intros; reflexivity.
  - simpl; intros [H|[H|H]]; discriminate || contradiction.
Qed.

(** *** The placeholder slot *)

Lemma insertSlot_not_nil lc x l : insertSlot lc x l <> [].
Proof. destruct l; simpl; [discriminate|]; destruct (_ <? 0)%Z; discriminate. Qed.

Lemma fold_insert_not_nil lc l : forall acc, acc <> [] ->
  fold_left (fun acc x => insertSlot lc x acc) l acc <> [].
Proof. induction l; simpl; auto; intros; apply IHl, insertSlot_not_nil. Qed.

Lemma sortSlots_not_nil lc s l : sortSlots lc (s :: l) <> [].
Proof. unfold sortSlots; simpl; apply fold_insert_not_nil; discriminate. Qed.

Lemma scanOrStub_not_nil B nh lc context page prefs :
  allRet (fun l => l <> []) (scanOrStub B nh lc context page prefs).
Proof.
  unfold scanOrStub; apply allRet_bind_any; intros [|s l].
  - apply allRet_bind_any; intros; simpl; discriminate.
  - simpl; apply sortSlots_not_nil.
Qed.

Lemma checkAvailability_not_nil U B P nh lc prefs :
  allRet (fun l => l <> []) (checkAvailability U B P nh lc prefs).
Proof.
  unfold checkAvailability.
  do 3 (apply allRet_bind_any; intro).
  apply allRet_finally; do 2 (apply allRet_bind_any; intro).
  apply scanOrStub_not_nil.
Qed.

(** C1 (amended): every list [checkAvailability] returns is non-empty;
    when the scan collects no slot it returns exactly the placeholder
    slot, dated with the current date; a list page with no "Choose"
    button is such a scan; an exception of the scan is not replaced by
    the placeholder but propagates. *)
Theorem checkAvailability_placeholder :
  (forall U B P nh lc prefs (env : Env) tr l tr',
      run env tr (checkAvailability U B P nh lc prefs) = (Ok l, tr') -> l <> []) /\
  (forall B nh lc context page prefs (env : Env) tr tr1 today,
      run env tr (scanCourtsAndSlots B nh context page prefs) = (Ok [], tr1) ->
      env tr1 NowIso = inl (VStr today) ->
      run env tr (scanOrStub B nh lc context page prefs)
        = (Ok [stubSlot B prefs today], NowIso :: tr1) /\
      date_iso (stubSlot B prefs today) = today) /\
  (forall B nh context page prefs (env : Env) tr,
      env tr (Count page chooseButtons) = inl (VNat 0) ->
      run env tr (scanCourtsAndSlots B nh context page prefs)
        = (Ok [], Count page chooseButtons :: tr)) /\
  (forall B nh lc context page prefs (env : Env) tr e tr1,
      run env tr (scanCourtsAndSlots B nh context page prefs) = (Exc e, tr1) ->
      run env tr (scanOrStub B nh lc context page prefs) = (Exc e, tr1)).
Proof.
  split; [|split; [|split]].
  - intros U B P nh lc prefs env tr l tr' R.
    exact (allRet_run _ _ (checkAvailability_not_nil U B P nh lc prefs) env tr l tr' R).
  - intros B nh lc context page prefs env tr tr1 today R H; split; [|reflexivity].
    unfold scanOrStub; rewrite run_bind, R.
    unfold nowIso, call_str, call; simpl; rewrite H; reflexivity.
  - intros B nh context page prefs env tr H.
    unfold scanCourtsAndSlots, count, call_nat, call; simpl; rewrite H; reflexivity.
  - intros B nh lc context page prefs env tr e tr1 R.
    unfold scanOrStub; rewrite run_bind, R; reflexivity.
Qed.

(** Witness of C1: the list page of [env_list false 0]. *)
Lemma checkAvailability_placeholder_witness :
  env_list false 0 [] (Count 3%nat chooseButtons) = inl (VNat 0) /\
  run (env_list false 0) [] (scanCourtsAndSlots None (fun h _ => inl h) 2%nat 3%nat no_preferences)
    = (Ok [], [Count 3%nat chooseButtons]) /\
  env_list false 0 [Count 3%nat chooseButtons] NowIso = inl (VStr "2026-10-14") /\
  run (env_list false 0) [] (scanOrStub None (fun h _ => inl h) (fun _ _ => 0%Z) 2%nat 3%nat no_preferences)
    = (Ok [stubSlot None no_preferences "2026-10-14"], [NowIso; Count 3%nat chooseButtons]).
Proof.
  pose proof (proj1 (proj2 (proj2 checkAvailability_placeholder)) None (fun h _ => inl h)
                2%nat 3%nat no_preferences (env_list false 0) [] eq_refl) as S.
  refine (conj eq_refl (conj S (conj eq_refl _))).
  exact (proj1 (proj1 (proj2 checkAvailability_placeholder) None (fun h _ => inl h) (fun _ _ => 0%Z)
                2%nat 3%nat no_preferences (env_list false 0) [] _ "2026-10-14" S eq_refl)).
Defined.

(** C1, a defect of the revision of [ubc.ts] that exports [bookSlot]:
    on a portal where counting the "Choose" buttons times out,
    [checkAvailability] throws that timeout (after closing the browser)
    instead of returning the placeholder, as [src/src/ubc.ts] does. *)
Lemma checkAvailability_scan_error_propagates :
  fst (run (env_list true 0) []
         (checkAvailability None (Some "u") (Some "p") (fun h _ => inl h) (fun _ _ => 0%Z)
            no_preferences))
  = Exc scan_err /\
  hd Launch (snd (run (env_list true 0) []
         (checkAvailability None (Some "u") (Some "p") (fun h _ => inl h) (fun _ _ => 0%Z)
            no_preferences))) = CloseBrowser 1%nat.
Proof. split; vm_compute; reflexivity. Qed.

(** *** Sorting *)

Section Sorting.
Variable lc : string -> string -> Z.
Hypothesis lc_antisym : antisymmetric_compare lc.

Lemma slotCompare_antisym a b : slotCompare lc b a = (- slotCompare lc a b)%Z.
Proof.
  unfold slotCompare; rewrite (String.eqb_sym (date_iso b) (date_iso a)).
  destruct (String.eqb (date_iso a) (date_iso b)); apply lc_antisym.
Qed.

Lemma insertSlot_perm x l : Permutation (x :: l) (insertSlot lc x l).
Proof.
  induction l as [|y l IH]; simpl; auto.
  destruct (slotCompare lc x y <? 0)%Z; auto.
  eapply perm_trans; [apply perm_swap|]; auto.
Qed.

Lemma insertSlot_sorted x l : Sorted (slot_le lc) l -> Sorted (slot_le lc) (insertSlot lc x l).
Proof.
  induction l as [|y l IH]; simpl; intros S; [auto|].
  destruct (slotCompare lc x y <? 0)%Z eqn:E.
  - apply Z.ltb_lt in E; constructor; auto; constructor; unfold slot_le; lia.
  - apply Z.ltb_ge in E; inversion S as [|? ? S' H']; subst.
    constructor; [apply IH; exact S'|].
    destruct l as [|z l]; simpl.
    + constructor; unfold slot_le; rewrite slotCompare_antisym; lia.
    + inversion H'; subst.
      destruct (slotCompare lc x z <? 0)%Z; constructor; auto.
      unfold slot_le; rewrite slotCompare_antisym; lia.
Qed.

Lemma fold_insert_perm_sorted l : forall acc, Sorted (slot_le lc) acc ->
  Permutation (rev l ++ acc) (fold_left (fun acc x => insertSlot lc x acc) l acc) /\
  Sorted (slot_le lc) (fold_left (fun acc x => insertSlot lc x acc) l acc).
Proof.
  induction l as [|x l IH]; simpl; intros acc S; [auto|].
  destruct (IH (insertSlot lc x acc) (insertSlot_sorted x acc S)) as [P1 S1].
  split; [|exact S1].
  eapply perm_trans; [|exact P1].
  rewrite <- app_assoc; apply Permutation_app_head, insertSlot_perm.
Qed.

Lemma sortSlots_perm_sorted l :
  Permutation l (sortSlots lc l) /\ Sorted (slot_le lc) (sortSlots lc l).
Proof.
  unfold sortSlots; destruct (fold_insert_perm_sorted l [] (Sorted_nil _)) as [P1 S1].
  split; [|exact S1]; rewrite app_nil_r in P1.
  eapply perm_trans; [apply Permutation_rev|exact P1].
Qed.

End Sorting.

(** C6: for a [localeCompare] that is antisymmetric, sorting puts any
    list of slots, in any order, into a permutation of it that is sorted
    by [(date_iso, time_24h)]; a non-empty scan result is returned
    sorted that way, and every list [checkAvailability] returns is
    sorted. *)
Theorem checkAvailability_sorted (lc : string -> string -> Z) :
  antisymmetric_compare lc ->
  (forall l, Permutation l (sortSlots lc l) /\ Sorted (slot_le lc) (sortSlots lc l)) /\
  (forall B nh context page prefs (env : Env) tr l tr1,
      l <> [] ->
      run env tr (scanCourtsAndSlots B nh context page prefs) = (Ok l, tr1) ->
      run env tr (scanOrStub B nh lc context page prefs) = (Ok (sortSlots lc l), tr1)) /\
  (forall U B P nh prefs (env : Env) tr l tr',
      run env tr (checkAvailability U B P nh lc prefs) = (Ok l, tr') ->
      Sorted (slot_le lc) l).
Proof.
  intros A; split; [|split].
  - intros l; apply sortSlots_perm_sorted, A.
  - intros B nh context page prefs env tr l tr1 NE R.
    unfold scanOrStub; rewrite run_bind, R; destruct l; [congruence|reflexivity].
  - intros U B P nh prefs env tr l tr' R.
    refine (allRet_run _ _ _ env tr l tr' R).
    unfold checkAvailability.
    do 3 (apply allRet_bind_any; intro).
    apply allRet_finally; do 2 (apply allRet_bind_any; intro).
    unfold scanOrStub; apply allRet_bind_any; intros [|s l0].
    + apply allRet_bind_any; intros; simpl; repeat constructor.
    + simpl; apply sortSlots_perm_sorted, A.
Qed.

(** Witness of C6: code-unit order, on two slots given out of order. *)
Lemma checkAvailability_sorted_witness :
  antisymmetric_compare codeUnitCompare /\
  sortSlots codeUnitCompare
    [mkSlot "2026-10-15" "09:00" (Some 60%Z) "Court 02" None;
     mkSlot "2026-10-14" "19:00" (Some 60%Z) "Court 01" None]
  = [mkSlot "2026-10-14" "19:00" (Some 60%Z) "Court 01" None;
     mkSlot "2026-10-15" "09:00" (Some 60%Z) "Court 02" None] /\
  Sorted (slot_le codeUnitCompare)
    (sortSlots codeUnitCompare
      [mkSlot "2026-10-15" "09:00" (Some 60%Z) "Court 02" None;
       mkSlot "2026-10-14" "19:00" (Some 60%Z) "Court 01" None]).
Proof.
  assert (A : antisymmetric_compare codeUnitCompare).
  { intros a b; unfold codeUnitCompare; rewrite (String.compare_antisym b a).
    destruct (String.compare a b); reflexivity. }
  split; [exact A|split; [reflexivity|]].
  exact (proj2 (proj1 (checkAvailability_sorted codeUnitCompare A) _)).
Defined.

(** *** Booking a time that no marker offers *)

Lemma run_call_val (env : Env) tr e v : env tr e = inl v -> run env tr (call e) = (Ok v, e :: tr).
Proof. intros H; rewrite run_call, H; reflexivity. Qed.

Lemma run_call_err (env : Env) tr e x : env tr e = inr x -> run env tr (call e) = (Exc x, e :: tr).
Proof. intros H; rewrite run_call, H; reflexivity. Qed.

Lemma list_ascii_of_string_app (s t : string) :
  list_ascii_of_string (s ++ t) = List.app (list_ascii_of_string s) (list_ascii_of_string t).
Proof. induction s; simpl; congruence. Qed.

Lemma prefixb_app (p s : list ascii) : prefixb p (List.app p s) = true.
Proof. induction p; simpl; auto; rewrite Ascii.eqb_refl; auto. Qed.

Lemma includes_prefix (p s : string) : includes (p ++ s) p = true.
Proof.
  unfold includes; rewrite list_ascii_of_string_app.
  destruct (list_ascii_of_string p) eqn:E; simpl;
    [destruct (list_ascii_of_string s); reflexivity|].
  rewrite Ascii.eqb_refl, prefixb_app; reflexivity.
Qed.

Lemma findSpan_none (env : Env) page t12 n : no_title_matches env page n t12 ->
  forall k i tr, (i + k <= n)%nat ->
  exists tr', run env tr (findSpan page t12 i k) = (Ok None, tr').
Proof.
  intros H k; induction k as [|k IH]; intros i tr Hik; [simpl; eauto|].
  cbn [findSpan]; destruct (H i tr ltac:(lia)) as [v [E F]].
  unfold getAttribute, call_optstr.
  rewrite run_bind, run_bind, run_call_val with (v := v) by exact E; simpl.
  rewrite F; apply IH; lia.
Qed.

(** C7: if the browser's lifecycle calls succeed, the facility page is
    opened (with the login) on page [p'], the requested [time_24h] has
    the 12-hour label [t12], and none of the [n] "Book Now" spans of
    the page has a title containing [t12], then [bookSlot] returns a
    failure whose message starts with "Could not find available slot". *)
Theorem bookSlot_slot_not_found U B P ru dc (env : Env) tr request b c p p' courtName tr1 t12 n :
  lifecycle_ok env b c p ->
  run env (NewPage c :: NewContext b :: Launch :: tr) (openFacility U B P request c p)
    = (Ok (p', courtName), tr1) ->
  Time.to12h (time_24h request) = Some t12 ->
  env tr1 (Count p' bookNowSpans) = inl (VNat n) ->
  no_title_matches env p' n t12 ->
  exists r, fst (run env tr (bookSlot U B P ru dc request)) = Ok r /\
            r = failure ("Could not find available slot at " ++ time_24h request
                         ++ " (" ++ t12 ++ ")") /\
            success r = false /\
            includes (message r) "Could not find available slot" = true.
Proof.
  intros L R T C N.
  destruct (L tr) as [L1 _].
  destruct (L (Launch :: tr)) as [_ [L2 _]].
  destruct (L (NewContext b :: Launch :: tr)) as [_ [_ [L3 _]]].
  destruct (findSpan_none env p' t12 n N n 0 (Count p' bookNowSpans :: tr1) ltac:(lia))
    as [tr2 F].
  unfold bookSlot, launch, newContext, newPage, call_handle.
  rewrite run_bind, run_bind, run_call_val with (v := VHandle b) by exact L1; cbn [run as_handle].
  rewrite run_bind, run_bind, run_call_val with (v := VHandle c) by exact L2; cbn [run as_handle].
  rewrite run_bind, run_bind, run_call_val with (v := VHandle p) by exact L3; cbn [run as_handle].
  rewrite run_finally; unfold bookPipeline; rewrite run_catch.
  unfold bookBody; rewrite run_bind, R; simpl fst; simpl snd.
  unfold bookSteps; rewrite T, run_bind; cbn [run].
  unfold count, call_nat; rewrite run_bind, run_bind; rewrite run_call_val with (v := VNat n) by exact C.
  cbn [run as_nat]; rewrite run_bind, F; cbn [run].
  destruct (L tr2) as [_ [_ [_ [v Cl]]]].
  rewrite Cl.
  cbn [run]; eexists; split; [reflexivity|]; split; [reflexivity|]; split; [reflexivity|].
  exact (includes_prefix "Could not find available slot"
           (" at " ++ time_24h request ++ " (" ++ t12 ++ ")")).
Qed.

(** Witness of C7: 10:00 on the portal of [env_portal], whose spans
    offer 3:00 PM and 7:00 PM only. *)
Lemma bookSlot_slot_not_found_witness :
  let tr0 := [NewPage 2%nat; NewContext 1%nat; Launch] in
  let open_run := run env_portal tr0
        (openFacility None (Some "u") (Some "p") (request_at "10:00") 2%nat 3%nat) in
  lifecycle_ok env_portal 1%nat 2%nat 3%nat /\
  open_run = (Ok (3%nat, "Court 01 "), snd open_run) /\
  Time.to12h "10:00" = Some "10:00 AM" /\
  env_portal (snd open_run) (Count 3%nat bookNowSpans) = inl (VNat 2%nat) /\
  no_title_matches env_portal 3%nat 2%nat "10:00 AM" /\
  exists r, fst (run env_portal [] (bookSlot None (Some "u") (Some "p") (fun _ => inl None)
                                 (fun s => inl s) (request_at "10:00"))) = Ok r /\
            r = failure ("Could not find available slot at " ++ "10:00" ++ " (" ++ "10:00 AM" ++ ")") /\
            success r = false /\
            includes (message r) "Could not find available slot" = true.
Proof.
  intros tr0 open_run.
  assert (L : lifecycle_ok env_portal 1%nat 2%nat 3%nat).
  { intros tr; split; [reflexivity|split; [reflexivity|split; [reflexivity|]]].
    exists VUnit; reflexivity. }
  assert (R : open_run = (Ok (3%nat, "Court 01 "), snd open_run)) by (vm_compute; reflexivity).
  assert (T : Time.to12h "10:00" = Some "10:00 AM") by (vm_compute; reflexivity).
  assert (C : env_portal (snd open_run) (Count 3%nat bookNowSpans) = inl (VNat 2%nat))
    by (vm_compute; reflexivity).
  assert (N : no_title_matches env_portal 3%nat 2%nat "10:00 AM").
  { intros [|[|i]] tr Hi; [| |lia]; eexists; split; try reflexivity; vm_compute; reflexivity. }
  refine (conj L (conj R (conj T (conj C (conj N _))))).
  exact (bookSlot_slot_not_found None (Some "u") (Some "p") (fun _ => inl None) (fun s => inl s)
           env_portal [] (request_at "10:00") 1%nat 2%nat 3%nat 3%nat "Court 01 " (snd open_run)
           "10:00 AM" 2%nat L R T C N).
Defined.

(** *** The pipeline boundary of [bookSlot] *)

(** A program that cannot throw, whatever the environment answers. *)
Fixpoint never_throws {A} (m : M A) : Prop :=
  match m with
  | Ret _ => True
  | Throw _ => False
  | Call _ k => forall r, never_throws (k r)
  end.

Lemma never_throws_catch {A} (m : M A) (h : err -> M A) :
  (forall e, never_throws (h e)) -> never_throws (catch m h).
Proof. intros H; induction m; simpl; auto. Qed.

Lemma never_throws_run {A} (m : M A) : never_throws m ->
  forall (env : Env) tr, exists a tr', run env tr m = (Ok a, tr').
Proof.
  induction m as [a|e|e k IH]; simpl; intros H env tr; [eauto|contradiction|].
  apply IH, H.
Qed.

Lemma bookPipeline_never_throws U B P ru dc request context page :
  never_throws (bookPipeline U B P ru dc request context page).
Proof. apply never_throws_catch; intros; exact I. Qed.

Lemma includes_suffix (p s : string) : includes (p ++ s) s = true.
Proof.
  unfold includes; rewrite list_ascii_of_string_app.
  induction (list_ascii_of_string p) as [|a l IH]; simpl.
  - destruct (list_ascii_of_string s) as [|x l]; simpl; [reflexivity|].
    pose proof (prefixb_app l []) as H; rewrite app_nil_r in H.
    rewrite Ascii.eqb_refl, H; reflexivity.
  - rewrite IH, orb_true_r; reflexivity.
Qed.

(** C3 (amended): once the browser, its context and its page are created
    and if closing the browser succeeds, [bookSlot] returns a result,
    whatever the portal does; an exception inside the pipeline becomes
    [failure ("Booking failed: " ++ message)] (["Unknown error"] for an
    empty message), which contains the error's message. *)
Theorem bookSlot_failure_boundary :
  (forall U B P ru dc (env : Env) tr request b c p,
      lifecycle_ok env b c p ->
      exists r tr', run env tr (bookSlot U B P ru dc request) = (Ok r, tr')) /\
  (forall U B P ru dc (env : Env) tr request context page e tr1,
      run env tr (bookBody U B P ru dc request context page) = (Exc e, tr1) ->
      run env tr (bookPipeline U B P ru dc request context page)
        = (Ok (failure ("Booking failed: " ++ errorText e)), tr1) /\
      success (failure ("Booking failed: " ++ errorText e)) = false /\
      includes (message (failure ("Booking failed: " ++ errorText e))) (Browser.message e) = true).
Proof.
  split.
  - intros U B P ru dc env tr request b c p L.
    destruct (L tr) as [L1 _].
    destruct (L (Launch :: tr)) as [_ [L2 _]].
    destruct (L (NewContext b :: Launch :: tr)) as [_ [_ [L3 _]]].
    unfold bookSlot, launch, newContext, newPage, call_handle.
    rewrite run_bind, run_bind, run_call_val with (v := VHandle b) by exact L1; cbn [run as_handle].
    rewrite run_bind, run_bind, run_call_val with (v := VHandle c) by exact L2; cbn [run as_handle].
    rewrite run_bind, run_bind, run_call_val with (v := VHandle p) by exact L3; cbn [run as_handle].
    rewrite run_finally.
    destruct (never_throws_run _ (bookPipeline_never_throws U B P ru dc request c p) env
                (NewPage c :: NewContext b :: Launch :: tr)) as [a [tr' E]].
    rewrite E; destruct (L tr') as [_ [_ [_ [v Cl]]]].
    unfold closeBrowser, call_unit; rewrite run_bind; rewrite run_call_val with (v := v) by exact Cl.
    cbn [run]; eauto.
  - intros U B P ru dc env tr request context page e tr1 R.
    unfold bookPipeline; rewrite run_catch, R; cbn [run].
    split; [reflexivity|split; [reflexivity|]].
    unfold errorText.
    destruct (String.eqb (Browser.message e) "") eqn:E.
    + apply String.eqb_eq in E; rewrite E; reflexivity.
    + exact (includes_suffix "Booking failed: " (Browser.message e)).
Qed.

(** Witness of C3: the booking of 19:00 on [env_portal], and an
    unreachable facility page. *)
Lemma bookSlot_failure_boundary_witness :
  lifecycle_ok env_portal 1%nat 2%nat 3%nat /\
  (exists r tr', run env_portal [] (bookSlot None (Some "u") (Some "p") (fun _ => inl None)
                   (fun s => inl s) (request_at "19:00")) = (Ok r, tr')) /\
  run env_unreachable [] (bookBody None (Some "u") (Some "p") (fun _ => inl None) (fun s => inl s)
                           (request_at "19:00") 2%nat 3%nat)
    = (Exc goto_err, [Goto 3%nat facURL "networkidle"]) /\
  run env_unreachable [] (bookPipeline None (Some "u") (Some "p") (fun _ => inl None) (fun s => inl s)
                           (request_at "19:00") 2%nat 3%nat)
    = (Ok (failure ("Booking failed: " ++ errorText goto_err)), [Goto 3%nat facURL "networkidle"]).
Proof.
  assert (L : lifecycle_ok env_portal 1%nat 2%nat 3%nat).
  { intros tr; split; [reflexivity|split; [reflexivity|split; [reflexivity|]]].
    exists VUnit; reflexivity. }
  assert (R : run env_unreachable [] (bookBody None (Some "u") (Some "p") (fun _ => inl None)
                (fun s => inl s) (request_at "19:00") 2%nat 3%nat)
              = (Exc goto_err, [Goto 3%nat facURL "networkidle"])) by (vm_compute; reflexivity).
  refine (conj L (conj _ (conj R _))).
  - exact (proj1 bookSlot_failure_boundary None (Some "u") (Some "p") (fun _ => inl None)
             (fun s => inl s) env_portal [] (request_at "19:00") 1%nat 2%nat 3%nat L).
  - exact (proj1 (proj2 bookSlot_failure_boundary None (Some "u") (Some "p") (fun _ => inl None)
             (fun s => inl s) env_unreachable [] (request_at "19:00") 2%nat 3%nat goto_err _ R)).
Defined.

(** Counterexample to C3 as stated: [bookSlot] throws to its caller when
    [chromium.launch()] fails; and on [env_portal] the attendee number
    cannot be set (the script answers [{success: false, method: 'none'}])
    and the wait for the participants URL times out, yet the booking goes
    on and reports success. *)
Lemma bookSlot_throws_and_recovers_silently :
  run env_launch_fails [] (bookSlot None (Some "u") (Some "p") (fun _ => inl None)
                             (fun s => inl s) (request_at "19:00"))
    = (Exc launch_err, [Launch]) /\
  env_portal [] (Evaluate 3%nat script_setAttendees (Some 2%Z)) = inl (VResult false "none") /\
  env_portal [] (WaitForURL 3%nat urlPattern_afterReserve 15000%Z) = inr (mkErr "Timeout 15000ms exceeded") /\
  let r := run env_portal [] (bookSlot None (Some "u") (Some "p") (fun _ => inl None)
                                (fun s => inl s) (request_at "19:00")) in
  In (Evaluate 3%nat script_setAttendees (Some 2%Z)) (snd r) /\
  In (WaitForURL 3%nat urlPattern_afterReserve 15000%Z) (snd r) /\
  fst r = Ok (mkBookingResult true (Some "ABC123") "Booking completed successfully"
                (Some (mkBookedSlot "19:00" 60 "Court 01"))).
Proof.
  split; [reflexivity|split; [reflexivity|split; [reflexivity|]]].
  intros r.
  assert (E : exists tr, snd r = tr /\ fst r = Ok (mkBookingResult true (Some "ABC123")
      "Booking completed successfully" (Some (mkBookedSlot "19:00" 60 "Court 01"))))
    by (eexists; split; [reflexivity|vm_compute; reflexivity]).
  destruct E as [tr [E1 E2]].
  split; [|split; [|exact E2]]; rewrite E1; subst r; vm_compute in E1; subst tr;
    simpl; repeat (left; reflexivity) || right.
Qed.

(** *** The texts [to24h] produces *)

Lemma in_pbind {A B} (p : Re.P A) (f : A -> Re.P B) s x :
  In x (Re.pbind p f s) -> exists a r, In (a, r) (p s) /\ In x (f a r).
Proof.
  unfold Re.pbind; rewrite in_flat_map; intros [[a r] [H1 H2]]; eauto.
Qed.

Lemma in_ret {A} (a : A) s x : In x (Re.ret a s) -> x = (a, s).
Proof. simpl; intros [H|[]]; auto. Qed.

Lemma in_sat f s x : In x (Re.sat f s) -> exists c r, x = (c, r) /\ s = c :: r /\ f c = true.
Proof.
  unfold Re.sat; destruct s as [|c r]; simpl; [contradiction|].
  destruct (f c) eqn:E; simpl; [|contradiction]; intros [H|[]]; eauto.
Qed.

Lemma in_alt {A} (p q : Re.P A) s x : In x (Re.alt p q s) -> In x (p s) \/ In x (q s).
Proof. unfold Re.alt; apply in_app_or. Qed.

Lemma in_digits12 s l r : In (l, r) (Re.digits12 s) ->
  (exists a, l = [a] /\ is_digit a = true) \/
  (exists a b, l = [a; b] /\ is_digit a = true /\ is_digit b = true).
Proof.
  unfold Re.digits12; intros H.
  apply in_pbind in H as [a [r1 [Ha H]]].
  apply in_sat in Ha as [c [r2 [Ec [_ Da]]]]; inversion Ec; subst.
  apply in_alt in H as [H|H].
  - apply in_pbind in H as [b [r3 [Hb H]]].
    apply in_sat in Hb as [c' [r4 [Ec' [_ Db]]]]; inversion Ec'; subst.
    apply in_ret in H; inversion H; subst; right; eauto.
  - apply in_ret in H; inversion H; subst; left; eauto.
Qed.

Lemma in_digits_2 s l r : In (l, r) (Re.digits_n 2 s) ->
  exists a b, l = [a; b] /\ is_digit a = true /\ is_digit b = true.
Proof.
  simpl Re.digits_n; intros H.
  apply in_pbind in H as [a [r1 [Ha H]]].
  apply in_sat in Ha as [c [r2 [Ec [_ Da]]]]; inversion Ec; subst.
  apply in_pbind in H as [l1 [r3 [H1 H]]].
  apply in_pbind in H1 as [b [r4 [Hb H1]]].
  apply in_sat in Hb as [c' [r5 [Ec' [_ Db]]]]; inversion Ec'; subst.
  apply in_pbind in H1 as [l2 [r6 [H2 H1]]].
  apply in_ret in H2; inversion H2; subst.
  apply in_ret in H1; inversion H1; subst.
  apply in_ret in H; inversion H; subst; eauto.
Qed.

Lemma in_time12 s hh mm ap r : In ((hh, mm, ap), r) (Re.re_time12 s) ->
  ((exists a, hh = [a] /\ is_digit a = true) \/
   (exists a b, hh = [a; b] /\ is_digit a = true /\ is_digit b = true)) /\
  (exists a b, mm = [a; b] /\ is_digit a = true /\ is_digit b = true).
Proof.
  unfold Re.re_time12; intros H.
  apply in_pbind in H as [hh' [r1 [H1 H]]].
  apply in_pbind in H as [c [r2 [_ H]]].
  apply in_pbind in H as [mm' [r3 [H3 H]]].
  apply in_pbind in H as [sp [r4 [_ H]]].
  apply in_pbind in H as [ap' [r5 [_ H]]].
  apply in_ret in H; inversion H; subst.
  split; [eapply in_digits12; eauto|eapply in_digits_2; eauto].
Qed.

Lemma full_in {A} (p : Re.P A) s a : Re.full p s = Some a -> exists r, In (a, r) (p s).
Proof.
  unfold Re.full; destruct (filter _ (p s)) as [|[a' r] l] eqn:E; [discriminate|].
  intros H; inversion H; subst; exists r.
  assert (I : In (a, r) (filter (fun '(_, r) => match r with [] => true | _ => false end) (p s)))
    by (rewrite E; left; reflexivity).
  apply filter_In in I; tauto.
Qed.

Lemma digit_code a : is_digit a = true -> exists k, (k < 10)%nat /\ a = dchar k.
Proof.
  unfold is_digit, code, dchar; intros H; apply andb_true_iff in H as [H1 H2].
  apply Nat.leb_le in H1; apply Nat.leb_le in H2.
  exists (nat_of_ascii a - 48)%nat; split; [lia|].
  rewrite <- (ascii_nat_embedding a) at 1; f_equal; lia.
Qed.

Lemma all_one_digit_ok : forallb one_digit_ok (seq 0 10) = true.
Proof. vm_compute; reflexivity. Qed.

Lemma all_two_digits_ok :
  forallb (fun k1 => forallb (fun k2 => two_digits_ok k1 k2) (seq 0 10)) (seq 0 10) = true.
Proof. vm_compute; reflexivity. Qed.

Lemma all_fmt24_ok :
  forallb (fun h => forallb (fun m => fmt24_ok h m) (seq 0 100)) (seq 0 112) = true.
Proof. vm_compute; reflexivity. Qed.

Lemma one_digit_value k : (k < 10)%nat -> digits_value 0 [dchar k] = Z.of_nat k.
Proof.
  intros Hk; apply Z.eqb_eq; exact (forallb_seq _ _ _ all_one_digit_ok k ltac:(lia)).
Qed.

Lemma two_digits k1 k2 : (k1 < 10)%nat -> (k2 < 10)%nat ->
  digits_value 0 [dchar k1; dchar k2] = Z.of_nat (10 * k1 + k2) /\
  string_of_list_ascii [dchar k1; dchar k2] = fmt2 (10 * k1 + k2).
Proof.
  intros H1 H2.
  pose proof (forallb_seq _ _ _ (forallb_seq _ _ _ all_two_digits_ok k1 ltac:(lia)) k2 ltac:(lia)) as C.
  unfold two_digits_ok in C; apply andb_true_iff in C as [C1 C2].
  apply Z.eqb_eq in C1; apply String.eqb_eq in C2; auto.
Qed.

Lemma fmt24_pieces h m : (h < 112)%nat -> (m < 100)%nat ->
  map Number (split ":" (fmt24 h m)) = [Some (Z.of_nat h); Some (Z.of_nat m)] /\
  start_hour_of (fmt24 h m) = Some (Z.of_nat h).
Proof.
  intros Hh Hm.
  pose proof (forallb_seq _ _ _ (forallb_seq _ _ _ all_fmt24_ok h ltac:(lia)) m ltac:(lia)) as C.
  unfold fmt24_ok in C; apply andb_true_iff in C as [C1 C2].
  destruct (map Number (split ":" (fmt24 h m))) as [|[h'|] [|[m'|] [|]]]; try discriminate.
  apply andb_true_iff in C1 as [C1 C1']; apply Z.eqb_eq in C1; apply Z.eqb_eq in C1'.
  destruct (start_hour_of (fmt24 h m)) as [h''|]; [|discriminate].
  apply Z.eqb_eq in C2; subst; auto.
Qed.

Lemma to24h_shape x t : Time.to24h x = Some t ->
  exists h m, (h < 112)%nat /\ (m < 100)%nat /\ t = fmt24 h m.
Proof.
  unfold Time.to24h.
  destruct (Re.full Re.re_time12 (trim_l (list_ascii_of_string x))) as [[[hh mm] ap]|] eqn:E;
    [|discriminate].
  intros Ht; pose proof (f_equal (fun o => match o with Some v => v | None => t end) Ht) as Ht2.
  cbv beta iota in Ht2; subst t; clear Ht.
  apply full_in in E as [r Hin]; apply in_time12 in Hin as [Hh [a [b [Em [Da Db]]]]]; subst mm.
  destruct (digit_code a Da) as [ka [Hka ->]]; destruct (digit_code b Db) as [kb [Hkb ->]].
  destruct (two_digits ka kb Hka Hkb) as [_ Sm].
  assert (H0 : (0 <= digits_value 0 hh <= 99)%Z).
  { destruct Hh as [[c [-> Dc]]|[c [c' [-> [Dc Dc']]]]].
    - destruct (digit_code c Dc) as [k [Hk ->]]; rewrite one_digit_value by exact Hk; lia.
    - destruct (digit_code c Dc) as [k [Hk ->]]; destruct (digit_code c' Dc') as [k' [Hk' ->]].
      rewrite (proj1 (two_digits k k' Hk Hk')); lia. }
  cbv zeta.
  match goal with
  | |- exists h m, _ /\ _ /\ padStart0 2 (num_to_string (Some ?H)) ++ _ = _ =>
      assert (HR : (0 <= H <= 111)%Z); [|exists (Z.to_nat H), (10 * ka + kb)%nat]
  end.
  - destruct (Z.eqb (digits_value 0 hh) 12 && _); [lia|].
    destruct (negb (Z.eqb (digits_value 0 hh) 12) && _); lia.
  - split; [lia|split; [lia|]].
    unfold fmt24; rewrite Sm; unfold fmt2; rewrite Z2Nat.id by lia; reflexivity.
Qed.

(** *** Durations *)

Lemma durationMinutes_fmt24 sh sm eh em :
  (sh < 112)%nat -> (sm < 100)%nat -> (eh < 112)%nat -> (em < 100)%nat ->
  Time.durationMinutes (fmt24 sh sm) (fmt24 eh em)
  = Some (Z.of_nat (eh * 60 + em) - Z.of_nat (sh * 60 + sm))%Z.
Proof.
  intros H1 H2 H3 H4; unfold Time.durationMinutes; cbv zeta.
  rewrite (proj1 (fmt24_pieces sh sm H1 H2)), (proj1 (fmt24_pieces eh em H3 H4)).
  f_equal; lia.
Qed.

Ltac ret_none := simpl; intros ? Hs; discriminate Hs.

Lemma extractSpan_minutes page prefs courtLabel i :
  allRet (fun o => forall s, o = Some s -> minutes_from_range s)
    (extractSpan page prefs courtLabel i).
Proof.
  unfold extractSpan.
  apply allRet_bind_any; intros isVis; destruct (negb isVis); [ret_none|].
  apply allRet_bind_any; intros txt; destruct (negb _); [ret_none|].
  apply allRet_bind_any; intros isAvailable; destruct (negb isAvailable); [ret_none|].
  apply allRet_bind_any; intros title.
  destruct (Re.exec Re.re_range (list_ascii_of_string (or_empty title))) as [[m1 m2]|] eqn:EX;
    [|ret_none].
  destruct (Time.to24h (string_of_list_ascii m1)) as [start24|] eqn:E1; [|ret_none].
  destruct (Time.to24h (string_of_list_ascii m2)) as [end24|] eqn:E2; [|ret_none].
  destruct (match start_hour prefs with Some _ => _ | None => false end); [ret_none|].
  destruct (match end_hour prefs with Some _ => _ | None => false end); [ret_none|].
  destruct (match min_minutes prefs with Some _ => _ | None => false end); [ret_none|].
  do 3 (apply allRet_bind_any; intro).
  simpl; intros s Hs; injection Hs as Hs; subst s.
  destruct (to24h_shape _ _ E1) as [sh [sm [Hsh [Hsm Es]]]].
  destruct (to24h_shape _ _ E2) as [eh [em [Heh [Hem Ee]]]].
  exists (or_empty title), m1, m2, sh, sm, eh, em; simpl.
  rewrite <- Ee; repeat split; auto.
  rewrite Es, Ee; apply durationMinutes_fmt24; assumption.
Qed.

Lemma extractLoop_minutes page prefs courtLabel k : forall i,
  allRet (Forall minutes_from_range) (extractLoop page prefs courtLabel i k).
Proof.
  induction k as [|k IH]; intros i; cbn [extractLoop]; [simpl; constructor|].
  eapply allRet_bind; [apply extractSpan_minutes|]; intros o Ho.
  eapply allRet_bind; [apply IH|]; intros rest Hr; simpl.
  destruct o as [s|]; auto.
Qed.

Lemma scanCourt_minutes B nh page prefs i :
  allRet (Forall minutes_from_range) (scanCourt B nh page prefs i).
Proof.
  unfold scanCourt.
  do 6 (apply allRet_bind_any; intro).
  eapply allRet_bind.
  - unfold extractSlotsFromScheduler; apply allRet_bind_any; intro; apply extractLoop_minutes.
  - intros l Hl; apply allRet_bind_any; intros; exact Hl.
Qed.

Lemma scanCourtsAndSlots_minutes B nh context page prefs :
  allRet (Forall minutes_from_range) (scanCourtsAndSlots B nh context page prefs).
Proof.
  unfold scanCourtsAndSlots; apply allRet_bind_any; intros cnt.
  generalize (Nat.min cnt 10) as k; intros k; generalize 0%nat as i.
  induction k as [|k IH]; intros i; cbn [scanLoop]; [simpl; constructor|].
  eapply allRet_bind; [apply scanCourt_minutes|]; intros here Hh.
  eapply allRet_bind; [apply IH|]; intros rest Hr; simpl.
  apply Forall_app; auto.
Qed.

(** C2 (amended): every slot the scanner produces has as [minutes] the
    difference [end - start], in minutes, of the two [HH:MM] ends of the
    time range it parsed from a marker's title, both read as times of
    the same day (nothing requires it to be positive); for [start < end]
    on the same day, [durationMinutes] is the positive number of minutes
    between them. *)
Theorem scanned_minutes_is_range_length :
  (forall B nh context page prefs (env : Env) tr l tr',
      run env tr (scanCourtsAndSlots B nh context page prefs) = (Ok l, tr') ->
      Forall minutes_from_range l) /\
  (forall sh sm eh em : nat,
      (sh < 24)%nat -> (sm < 60)%nat -> (eh < 24)%nat -> (em < 60)%nat ->
      (sh * 60 + sm < eh * 60 + em)%nat ->
      Time.durationMinutes (fmt24 sh sm) (fmt24 eh em)
        = Some (Z.of_nat (eh * 60 + em) - Z.of_nat (sh * 60 + sm))%Z /\
      (0 < Z.of_nat (eh * 60 + em) - Z.of_nat (sh * 60 + sm))%Z).
Proof.
  split.
  - intros B nh context page prefs env tr l tr' R.
    exact (allRet_run _ _ (scanCourtsAndSlots_minutes B nh context page prefs) env tr l tr' R).
  - intros sh sm eh em H1 H2 H3 H4 H5; split; [apply durationMinutes_fmt24; lia|lia].
Qed.

(** Witness of C2: the 7:00 PM - 8:00 PM span of [env_one_span], and the
    range 19:00 to 20:00. *)
Lemma scanned_minutes_is_range_length_witness :
  let r := run (env_one_span "7:00 PM - 8:00 PM") []
             (scanCourtsAndSlots None (fun h _ => inl h) 2%nat 3%nat no_preferences) in
  r = (Ok [mkSlot "2026-10-15" "19:00" (Some 60%Z) "Court 1" (Some facURL)], snd r) /\
  Forall minutes_from_range [mkSlot "2026-10-15" "19:00" (Some 60%Z) "Court 1" (Some facURL)] /\
  Time.durationMinutes (fmt24 19 0) (fmt24 20 0) = Some 60%Z /\ (0 < 60)%Z.
Proof.
  intros r.
  assert (R : r = (Ok [mkSlot "2026-10-15" "19:00" (Some 60%Z) "Court 1" (Some facURL)], snd r))
    by (vm_compute; reflexivity).
  refine (conj R (conj _ _)).
  - exact (proj1 scanned_minutes_is_range_length None (fun h _ => inl h) 2%nat 3%nat
             no_preferences (env_one_span "7:00 PM - 8:00 PM") [] _ (snd r) R).
  - exact (proj2 scanned_minutes_is_range_length 19%nat 0%nat 20%nat 0%nat
             ltac:(lia) ltac:(lia) ltac:(lia) ltac:(lia) ltac:(lia)).
Defined.

(** C2, a defect of the scanner of the revision that exports
    [bookSlot]: a marker titled "11:00 PM - 12:00 AM" gives a slot of
    [-1380] minutes (the end at midnight is read as 00:00 of the same
    day), which [checkAvailability] returns when [min_minutes] is
    absent. *)
Lemma overnight_range_negative_minutes :
  fst (run (env_one_span "11:00 PM - 12:00 AM") []
         (checkAvailability None (Some "u") (Some "p") (fun h _ => inl h) codeUnitCompare
            no_preferences))
  = Ok [mkSlot "2026-10-15" "23:00" (Some (-1380)%Z) "Court 1" (Some facURL)].
Proof. vm_compute; reflexivity. Qed.

(** *** Keeping an interval *)






(** The two runs of the witness of C5, evaluated. *)
Lemma extractSpan_evening_runs :
  fst (run (env_one_span "7:00 PM - 8:00 PM") [] (extractSpan 3%nat (prefs_evening 20) "Court 1" 0%nat))
    = Ok (Some (mkSlot "2026-10-15" "19:00" (Some 60%Z) "Court 1" (Some facURL))) /\
  fst (run (env_one_span "7:00 PM - 8:00 PM") [] (extractSpan 3%nat (prefs_evening 19) "Court 1" 0%nat))
    = Ok None.
Proof. split; vm_compute; reflexivity. Qed.

End Proofs.

(** ** Further properties of the code *)

Module Extras.
Import Js Browser Model Booking RunLaws Specs Proofs.
Local Open Scope string_scope.

(** *** Laws of calls *)

Lemma allCalls_bind {A B} (Q : Eff -> Prop) (m : M A) (f : A -> M B) :
  allCalls Q m -> (forall a, allCalls Q (f a)) -> allCalls Q (bind m f).
Proof.
  intros Hm Hf; induction m as [a|e|e k IH]; simpl in *; auto.
  destruct Hm as [He Hk]; split; auto.
Qed.

Lemma allCalls_catch {A} (Q : Eff -> Prop) (m : M A) (h : err -> M A) :
  allCalls Q m -> (forall e, allCalls Q (h e)) -> allCalls Q (catch m h).
Proof.
  intros Hm Hh; induction m as [a|e|e k IH]; simpl in *; auto.
  destruct Hm as [He Hk]; split; auto.
Qed.

Lemma allCalls_call (Q : Eff -> Prop) e : Q e -> allCalls Q (call e).
Proof. intros H; simpl; split; [exact H|intros [v|x]; exact I]. Qed.

Lemma allCalls_run {A} (Q : Eff -> Prop) (m : M A) : allCalls Q m ->
  forall (env : Env) tr, exists calls, snd (run env tr m) = List.app calls tr /\ Forall Q calls.
Proof.
  induction m as [a|e|e k IH]; simpl; intros H env tr.
  - exists []; auto.
  - exists []; auto.
  - destruct H as [He Hk].
    destruct (IH (env tr e) (Hk _) env (e :: tr)) as [calls [E F]].
    exists (List.app calls [e]); rewrite <- app_assoc; split; [exact E|].
    apply Forall_app; split; auto.
Qed.

Lemma never_throws_bind {A B} (m : M A) (f : A -> M B) :
  never_throws m -> (forall a, never_throws (f a)) -> never_throws (bind m f).
Proof. intros Hm Hf; induction m; simpl in *; auto; contradiction. Qed.

(** *** White space and lines *)

Lemma drop_ws_split l : exists w, l = List.app w (drop_ws l).
Proof.
  induction l as [|c l [w IH]]; simpl; [exists []; reflexivity|].
  destruct (is_ws c); [exists (c :: w); simpl; f_equal; exact IH|exists []; reflexivity].
Qed.

Definition head_not_ws (l : list ascii) : Prop :=
  match l with c :: _ => is_ws c = false | [] => True end.

Lemma drop_ws_head l : head_not_ws (drop_ws l).
Proof.
  induction l as [|c l IH]; simpl; [exact I|].
  destruct (is_ws c) eqn:E; [exact IH|exact E].
Qed.

Lemma drop_ws_id l : head_not_ws l -> drop_ws l = l.
Proof. destruct l as [|c l]; simpl; [reflexivity|intros H; rewrite H; reflexivity]. Qed.

Lemma in_drop_ws c l : In c (drop_ws l) -> In c l.
Proof.
  induction l as [|d l IH]; simpl; [auto|].
  destruct (is_ws d); simpl; auto.
Qed.

Lemma in_trim_l c l : In c (trim_l l) -> In c l.
Proof.
  unfold trim_l; intros H.
  apply in_rev in H; apply in_drop_ws in H; apply in_rev in H; apply in_drop_ws in H.
  exact H.
Qed.

Lemma trim_l_idem l : trim_l (trim_l l) = trim_l l.
Proof.
  unfold trim_l.
  set (a := drop_ws l); set (b := drop_ws (rev a)).
  assert (Ha : head_not_ws a) by apply drop_ws_head.
  assert (Hb : head_not_ws b) by apply drop_ws_head.
  assert (Hrb : head_not_ws (rev b)).
  { destruct (drop_ws_split (rev a)) as [w Ew]; fold b in Ew.
    assert (Ea : a = List.app (rev b) (rev w)).
    { rewrite <- rev_app_distr, <- Ew, rev_involutive; reflexivity. }
    destruct (rev b) as [|c r]; [exact I|].
    rewrite Ea in Ha; exact Ha. }
  rewrite (drop_ws_id (rev b) Hrb), rev_involutive, (drop_ws_id b Hb); reflexivity.
Qed.

Lemma trim_idem s : trim (trim s) = trim s.
Proof.
  unfold trim; rewrite list_ascii_of_string_of_list_ascii, trim_l_idem; reflexivity.
Qed.

Lemma split_l_no_sep sep s w : In w (split_l sep s) -> ~ In sep w.
Proof.
  revert w; induction s as [|c r IH]; simpl; intros w H.
  - destruct H as [<-|[]]; simpl; auto.
  - destruct (Ascii.eqb c sep) eqn:E.
    + destruct H as [<-|H]; [simpl; auto|apply IH, H].
    + destruct (split_l sep r) as [|w0 ws] eqn:Es.
      * destruct H as [<-|[]]; simpl; intros [H|[]]; subst; rewrite Ascii.eqb_refl in E;
          discriminate.
      * destruct H as [<-|H].
        -- simpl; intros [H|H]; [subst; rewrite Ascii.eqb_refl in E; discriminate|].
           apply (IH w0); [left; reflexivity|exact H].
        -- apply IH; right; exact H.
Qed.

(** A trimmed, non-empty text with no line feed. *)
Definition one_line (s : string) : Prop :=
  s <> "" /\ trim s = s /\ ~ In "010"%char (list_ascii_of_string s).

Lemma firstLine_one_line text : UbcSrc.firstLine text <> "" -> one_line (UbcSrc.firstLine text).
Proof.
  unfold UbcSrc.firstLine.
  destruct (filter _ _) as [|l ls] eqn:E; [intros H; contradiction H; reflexivity|].
  intros Hne; split; [exact Hne|].
  assert (Hin : In l (filter (fun l => negb (String.eqb l "")) (map trim (split "010"%char text))))
    by (rewrite E; left; reflexivity).
  apply filter_In in Hin as [Hin _]; apply in_map_iff in Hin as [w [<- Hw]].
  split; [apply trim_idem|].
  unfold split in Hw; apply in_map_iff in Hw as [ws [<- Hws]].
  unfold trim; rewrite list_ascii_of_string_of_list_ascii; intros Hc.
  apply in_trim_l in Hc; rewrite list_ascii_of_string_of_list_ascii in Hc.
  exact (split_l_no_sep _ _ _ Hws Hc).
Qed.

Lemma unknown_court_one_line : one_line "Unknown court".
Proof.
  split; [discriminate|split; [vm_compute; reflexivity|]].
  simpl; intros H; repeat destruct H as [H|H]; discriminate H || contradiction.
Qed.

Lemma inferCourtName_never_throws page button :
  never_throws (UbcSrc.inferCourtName page button).
Proof. apply never_throws_catch; intros; exact I. Qed.

Lemma run_bind_ok {A B} (env : Env) (m : M A) (f : A -> M B) tr a tr1 :
  run env tr m = (Ok a, tr1) -> run env tr (bind m f) = run env tr1 (f a).
Proof. intros H; rewrite run_bind, H; reflexivity. Qed.

(** [inferCourtName] never throws, and the name it returns is one
    trimmed, non-empty line: the first non-blank line of the card's
    text, or "Unknown court". *)
Theorem inferCourtName_one_line page button :
  never_throws (UbcSrc.inferCourtName page button) /\
  allRet one_line (UbcSrc.inferCourtName page button).
Proof.
  split.
  - apply inferCourtName_never_throws.
  - apply allRet_catch.
    + apply allRet_bind_any; intros t; cbv beta zeta; simpl allRet.
      destruct (String.eqb (UbcSrc.firstLine (trim t)) "") eqn:E.
      * exact unknown_court_one_line.
      * apply firstLine_one_line; intros H; rewrite H in E; discriminate.
    + intros; exact unknown_court_one_line.
Qed.

(** *** The debugging listing *)

Ltac read_step :=
  apply allCalls_bind; [apply allCalls_catch; [|intros; exact I]|intros; cbv beta].

Lemma debugLoop_calls page : forall r i, (i + r <= 30)%nat ->
  allCalls (debug_call page) (UbcSrc.debugLoop page i r).
Proof.
  induction r as [|r IH]; intros i Hi; cbn [UbcSrc.debugLoop]; [exact I|].
  unfold orElse.
  read_step.
  unfold call_str. apply allCalls_bind; [apply allCalls_call|intros; exact I].
  split; [reflexivity|exists i; split; [lia|reflexivity]].
  read_step.
  unfold Ubc.getAttribute, call_optstr. apply allCalls_bind; [apply allCalls_call|intros; exact I].
  split; [reflexivity|exists i; split; [lia|reflexivity]].
  read_step.
  unfold Ubc.innerText, call_str. apply allCalls_bind; [apply allCalls_call|intros; exact I].
  split; [reflexivity|exists i; split; [lia|reflexivity]].
  read_step.
  unfold Ubc.getAttribute, call_optstr. apply allCalls_bind; [apply allCalls_call|intros; exact I].
  split; [reflexivity|exists i; split; [lia|reflexivity]].
  apply IH; lia.
Qed.

(** [debugListClickable] only reads the page: its calls count the
    clickable elements and read the tag, role, text and value of at most
    the first 30 of them; it never clicks, fills, navigates or waits. *)
Theorem debugListClickable_reads_only page (env : Env) tr :
  exists calls, snd (run env tr (UbcSrc.debugListClickable page)) = List.app calls tr /\
                Forall (debug_call page) calls.
Proof.
  apply allCalls_run.
  unfold UbcSrc.debugListClickable, Ubc.count, call_nat.
  apply allCalls_bind; [apply allCalls_bind; [apply allCalls_call; split; reflexivity|intros; exact I]|].
  intros n; apply debugLoop_calls; lia.
Qed.

(** *** [parseTimeFromText] *)

Lemma exec_in {A} (p : Re.P A) s a : Re.exec p s = Some a -> exists s' r, In (a, r) (p s').
Proof.
  induction s as [|c s IH]; simpl.
  - destruct (p []) as [|[a' r] l] eqn:E; [discriminate|].
    intros H; inversion H; subst; exists [], r; rewrite E; left; reflexivity.
  - destruct (p (c :: s)) as [|[a' r] l] eqn:E; [exact IH|].
    intros H; inversion H; subst; exists (c :: s), r; rewrite E; left; reflexivity.
Qed.

Lemma all_parse_one_ok : forallb parse_one_ok (seq 0 10) = true.
Proof. vm_compute; reflexivity. Qed.

Lemma all_parse_two_ok :
  forallb (fun k1 => forallb (fun k2 => parse_two_ok k1 k2) (seq 0 10)) (seq 0 10) = true.
Proof. vm_compute; reflexivity. Qed.

Lemma parse_hour hh :
  ((exists a, hh = [a] /\ is_digit a = true) \/
   (exists a b, hh = [a; b] /\ is_digit a = true /\ is_digit b = true)) ->
  exists z, parseInt (string_of_list_ascii hh) = Some z /\ (0 <= z <= 99)%Z.
Proof.
  intros [[a [-> Da]]|[a [b [-> [Da Db]]]]].
  - destruct (digit_code a Da) as [k [Hk ->]].
    pose proof (forallb_seq _ _ _ all_parse_one_ok k ltac:(lia)) as C; unfold parse_one_ok in C.
    destruct (parseInt _) as [z|]; [|discriminate].
    apply Z.eqb_eq in C; exists z; split; [reflexivity|lia].
  - destruct (digit_code a Da) as [k1 [Hk1 ->]]; destruct (digit_code b Db) as [k2 [Hk2 ->]].
    pose proof (forallb_seq _ _ _ (forallb_seq _ _ _ all_parse_two_ok k1 ltac:(lia)) k2 ltac:(lia))
      as C; unfold parse_two_ok in C.
    destruct (parseInt _) as [z|]; [|discriminate].
    apply Z.eqb_eq in C; exists z; split; [reflexivity|lia].
Qed.

Lemma parseTimeFromText_fmt raw t : UbcSrc.parseTimeFromText raw = Some t ->
  exists h m, (h < 112)%nat /\ (m < 100)%nat /\ t = fmt24 h m.
Proof.
  unfold UbcSrc.parseTimeFromText.
  destruct (String.eqb (trim raw) ""); [discriminate|].
  destruct (Re.exec Re.re_time12 (list_ascii_of_string (trim raw))) as [[[hh mm] ap]|] eqn:E;
    [|discriminate].
  intros Ht; pose proof (f_equal (fun o => match o with Some v => v | None => t end) Ht) as Ht2.
  cbv beta iota in Ht2; subst t; clear Ht.
  apply exec_in in E as [s' [r Hin]].
  apply in_time12 in Hin as [Hh [a [b [Em [Da Db]]]]]; subst mm.
  destruct (digit_code a Da) as [ka [Hka ->]]; destruct (digit_code b Db) as [kb [Hkb ->]].
  destruct (two_digits ka kb Hka Hkb) as [_ Sm].
  destruct (parse_hour hh Hh) as [z [Ez Hz]]; rewrite Ez; cbv zeta.
  repeat match goal with |- context [if ?b then _ else _] => destruct b end;
    cbn [UbcSrc.num_add];
    match goal with
    | |- exists h m, _ /\ _ /\ padStart0 2 (num_to_string (Some ?H)) ++ _ = _ =>
        exists (Z.to_nat H), (10 * ka + kb)%nat; split; [lia|split; [lia|]];
        unfold fmt24; rewrite Sm; unfold fmt2; rewrite Z2Nat.id by lia; reflexivity
    end.
Qed.

(** [parseTimeFromText] returns [null] or an [HH:MM] text (an hour up to
    111 and two minute digits); the pattern is not anchored, so the time
    may sit inside other text, and neither the hour nor the minute is
    range-checked: "13:00 PM" gives "25:00" and "9:75 am" gives "09:75". *)
Theorem parseTimeFromText_shape :
  (forall raw t, UbcSrc.parseTimeFromText raw = Some t ->
     exists h m, (h < 112)%nat /\ (m < 100)%nat /\ t = fmt24 h m) /\
  UbcSrc.parseTimeFromText "Court 2 (8:30 PM)" = Some "20:30" /\
  UbcSrc.parseTimeFromText "13:00 PM" = Some "25:00" /\
  UbcSrc.parseTimeFromText "9:75 am" = Some "09:75" /\
  UbcSrc.parseTimeFromText "Book Now" = None.
Proof.
  split; [exact parseTimeFromText_fmt|].
  repeat split; vm_compute; reflexivity.
Qed.

Lemma parseTimeFromText_shape_witness :
  UbcSrc.parseTimeFromText "10:00 PM" = Some "22:00" /\
  exists h m, (h < 112)%nat /\ (m < 100)%nat /\ "22:00" = fmt24 h m.
Proof.
  split; [vm_compute; reflexivity|].
  apply (proj1 parseTimeFromText_shape "10:00 PM"); vm_compute; reflexivity.
Defined.

Lemma all_agree :
  forallb (fun h => forallb (fun m => forallb (fun pm =>
    forallb (fun pad => forallb (fun sp => forallb (fun low =>
      agree_label pad sp low h m pm) bools) bools) bools) bools) (seq 0 60)) (seq 1 12)
  = true.
Proof. vm_compute; reflexivity. Qed.

(** The two revisions read a portal time label the same way: on every
    label [h:mm AM/PM] with [h] in [1, 12], in each spelling the
    patterns accept, [parseTimeFromText] of [src/src/ubc.ts] and [to24h]
    of the later revision give the same [HH:MM] text. *)
Theorem parseTimeFromText_agrees_with_to24h (h m : nat) (pm pad sp low : bool) :
  (1 <= h <= 12)%nat -> (m < 60)%nat ->
  exists t, UbcSrc.parseTimeFromText (label12_variant pad sp low h m pm) = Some t /\
            Time.to24h (label12_variant pad sp low h m pm) = Some t.
Proof.
  intros Hh Hm.
  assert (C : agree_label pad sp low h m pm = true).
  { pose proof (forallb_seq _ _ _ all_agree h ltac:(lia)) as H1.
    pose proof (forallb_seq _ _ _ H1 m ltac:(lia)) as H2.
    pose proof (forallb_bools _ H2 pm) as H3.
    pose proof (forallb_bools _ H3 pad) as H4.
    pose proof (forallb_bools _ H4 sp) as H5.
    exact (forallb_bools _ H5 low). }
  unfold agree_label in C.
  destruct (UbcSrc.parseTimeFromText _) as [a|]; [|discriminate].
  destruct (Time.to24h _) as [b|]; [|discriminate].
  apply String.eqb_eq in C; subst; eauto.
Qed.

Lemma parseTimeFromText_agrees_with_to24h_witness :
  (1 <= 12 <= 12)%nat /\ (5 < 60)%nat /\
  exists t, UbcSrc.parseTimeFromText (label12_variant false false true 12 5 false) = Some t /\
            Time.to24h (label12_variant false false true 12 5 false) = Some t.
Proof.
  split; [lia|split; [lia|]].
  exact (parseTimeFromText_agrees_with_to24h 12 5 false false false true ltac:(lia) ltac:(lia)).
Defined.

(** *** The scheduler table of one court *)

Definition row_slot_ok (prefs : Preferences) (todayIso courtName : string) (s : Slot) : Prop :=
  src_slot_in_window prefs s /\ date_iso s = todayIso /\
  Model.location s = court_location courtName /\ deep_link s <> None.

Lemma rowLoop_ok page rows todayIso prefs courtName : forall r i,
  allRet (Forall (row_slot_ok prefs todayIso courtName))
    (UbcSrc.rowLoop page rows todayIso
       (match start_hour prefs with Some h => h | None => 0 end)
       (match end_hour prefs with Some h => h | None => 24 end)
       (match min_minutes prefs with Some m => m | None => 60 end) courtName i r).
Proof.
  induction r as [|r IH]; intros i; cbn [UbcSrc.rowLoop]; [constructor|].
  apply allRet_bind_any; intros t.
  destruct (UbcSrc.parseTimeFromText (trim t)) as [time|] eqn:Ep; [|apply IH].
  destruct (String.eqb time ""); [apply IH|].
  destruct (Ubc.num_lt (Ubc.start_hour_of time) _ || Ubc.num_ge (Ubc.start_hour_of time) _)
    eqn:Eh; [apply IH|].
  apply allRet_bind_any; intros cnt.
  destruct (Nat.eqb cnt 0); [apply IH|].
  apply allRet_bind_any; intros u.
  apply allRet_bind with (P := Forall (row_slot_ok prefs todayIso courtName)); [apply IH|].
  intros rest Hrest; simpl; constructor; [|exact Hrest].
  destruct (parseTimeFromText_fmt _ _ Ep) as [h [m [Hh [Hm ->]]]].
  destruct (fmt24_pieces h m Hh Hm) as [_ Hs]; rewrite Hs in Eh.
  apply orb_false_iff in Eh as [E1 E2]; unfold Ubc.num_lt, Ubc.num_ge in *.
  apply Z.ltb_nlt in E1; rewrite Z.geb_leb in E2; apply Z.leb_nle in E2.
  unfold row_slot_ok; split.
  - exists h, m; split; [lia|split; [lia|split; [reflexivity|split; [simpl; lia|reflexivity]]]].
  - split; [reflexivity|split; [reflexivity|discriminate]].
Qed.

Lemma scanSingleCourtPage_slots_ok page prefs courtName :
  allRet (fun l => Forall (fun s => src_slot_in_window prefs s /\
                                    Model.location s = court_location courtName /\
                                    deep_link s <> None) l /\ same_date l)
    (UbcSrc.scanSingleCourtPage page prefs courtName).
Proof.
  unfold UbcSrc.scanSingleCourtPage.
  apply allRet_bind_any; intros _u; apply allRet_bind_any; intros nt.
  apply allRet_bind_any; intros [g|].
  - apply allRet_bind_any; intros nr; apply allRet_bind_any; intros d; cbv zeta.
    eapply allRet_weaken; [|apply rowLoop_ok].
    intros l Hl; split.
    + eapply Forall_impl; [|exact Hl]; intros s [H1 [_ H2]]; exact (conj H1 H2).
    + intros s1 s2 I1 I2.
      rewrite Forall_forall in Hl.
      destruct (Hl s1 I1) as [_ [-> _]]; destruct (Hl s2 I2) as [_ [-> _]]; reflexivity.
  - apply allRet_bind_any; intros _v; simpl; split; [constructor|intros s1 s2 []].
Qed.

(** Every slot [scanSingleCourtPage] returns comes from a row of the
    scheduler table whose time parsed to [HH:MM] with an hour in
    [[start_hour ?? 0, end_hour ?? 24)], lasts [min_minutes ?? 60]
    minutes, is placed at the court name (or the generic court label
    when the name is empty), carries a deep link, and all of them carry
    the same date. *)
Theorem scanSingleCourtPage_slots page prefs courtName :
  allRet (fun l => Forall (fun s => src_slot_in_window prefs s /\
                                    Model.location s = court_location courtName /\
                                    deep_link s <> None) l /\ same_date l)
    (UbcSrc.scanSingleCourtPage page prefs courtName).
Proof. exact (scanSingleCourtPage_slots_ok page prefs courtName). Qed.

(** *** The court loop *)

Lemma scanOneCourt_window baseUrl newURL_href page prefs i :
  allRet (fun hb => Forall (src_slot_in_window prefs) (fst hb))
    (UbcSrc.scanOneCourt baseUrl newURL_href page prefs i).
Proof.
  unfold UbcSrc.scanOneCourt.
  apply allRet_bind_any; intros name.
  apply allRet_bind with (P := Forall (src_slot_in_window prefs)).
  - apply allRet_catch; [|intros; constructor].
    apply allRet_bind_any; intros href; apply allRet_bind_any; intros _u.
    eapply allRet_weaken; [|apply scanSingleCourtPage_slots_ok].
    intros l [Hl _]; eapply Forall_impl; [|exact Hl]; intros s [H _]; exact H.
  - intros l Hl; apply allRet_bind_any; intros b; exact Hl.
Qed.

Lemma scanLoop_window baseUrl newURL_href page prefs : forall r i,
  allRet (Forall (src_slot_in_window prefs))
    (UbcSrc.scanLoop baseUrl newURL_href page prefs i r).
Proof.
  induction r as [|r IH]; intros i; cbn [UbcSrc.scanLoop]; [constructor|].
  apply allRet_bind with (1 := scanOneCourt_window baseUrl newURL_href page prefs i).
  intros [l [|]] Hl; simpl in Hl; [|exact Hl].
  apply allRet_bind with (1 := IH (S i)); intros rest Hr; simpl.
  apply Forall_app; split; assumption.
Qed.

Lemma scanOneCourt_never_throws baseUrl newURL_href page prefs i :
  never_throws (UbcSrc.scanOneCourt baseUrl newURL_href page prefs i).
Proof.
  unfold UbcSrc.scanOneCourt.
  apply never_throws_bind; [apply inferCourtName_never_throws|intros name].
  apply never_throws_bind; [apply never_throws_catch; intros; exact I|intros l].
  apply never_throws_bind; [apply never_throws_catch; intros; exact I|intros b; exact I].
Qed.

Lemma scanLoop_never_throws baseUrl newURL_href page prefs : forall r i,
  never_throws (UbcSrc.scanLoop baseUrl newURL_href page prefs i r).
Proof.
  induction r as [|r IH]; intros i; cbn [UbcSrc.scanLoop]; [exact I|].
  apply never_throws_bind; [apply scanOneCourt_never_throws|intros [l [|]]; [|exact I]].
  apply never_throws_bind; [apply IH|intros; exact I].
Qed.

Lemma scanCourtsAndSlots_window baseUrl newURL_href page prefs :
  allRet (Forall (src_slot_in_window prefs))
    (UbcSrc.scanCourtsAndSlots baseUrl newURL_href page prefs).
Proof.
  unfold UbcSrc.scanCourtsAndSlots; apply allRet_bind_any; intros k.
  destruct (Nat.eqb k 0); [apply allRet_bind_any; intros; constructor|apply scanLoop_window].
Qed.

(** Once the court list has been counted, [scanCourtsAndSlots] never
    fails: a court whose page cannot be opened or read contributes no
    slot, and a failed return to the court list ends the loop, so a
    portal that answers the count with a non-zero number and fails every
    later call still gives a result; every slot it returns lies in the
    requested hour window and lasts [min_minutes ?? 60] minutes. *)
Theorem scanCourtsAndSlots_after_count baseUrl newURL_href page prefs (env : Env) tr n tr1 :
  run env tr (Ubc.count page UbcSrc.chooseButtons) = (Ok n, tr1) -> n <> 0%nat ->
  exists l tr', run env tr (UbcSrc.scanCourtsAndSlots baseUrl newURL_href page prefs) = (Ok l, tr') /\
                Forall (src_slot_in_window prefs) l.
Proof.
  intros Hc Hn.
  unfold UbcSrc.scanCourtsAndSlots in *.
  rewrite run_bind_ok with (1 := Hc).
  apply Nat.eqb_neq in Hn; rewrite Hn.
  destruct (never_throws_run _ (scanLoop_never_throws baseUrl newURL_href page prefs
              (Nat.min n 10) 0) env tr1) as [l [tr' R]].
  exists l, tr'; split; [exact R|].
  eapply allRet_run; [apply scanLoop_window|exact R].
Qed.

Lemma scanCourtsAndSlots_after_count_witness :
  exists l tr', run (env_src_hostile 3) [] (UbcSrc.scanCourtsAndSlots None
                  (fun _ _ => inl "") 7%nat no_preferences) = (Ok l, tr') /\
                Forall (src_slot_in_window no_preferences) l.
Proof.
  apply (scanCourtsAndSlots_after_count None (fun _ _ => inl "") 7%nat no_preferences
           (env_src_hostile 3) [] 3%nat [Count 7%nat UbcSrc.chooseButtons]);
    [vm_compute; reflexivity|discriminate].
Defined.

(** *** [checkAvailability] *)

Lemma checkAvailability_slots_or_stub_any baseUrl user pass newURL_href prefs :
  allRet (fun l => l <> [] /\
                   (Forall (src_slot_in_window prefs) l \/
                    exists today, l = [src_stub baseUrl prefs today]))
    (UbcSrc.checkAvailability baseUrl user pass newURL_href prefs).
Proof.
  unfold UbcSrc.checkAvailability.
  apply allRet_bind_any; intros b; apply allRet_bind_any; intros c;
    apply allRet_bind_any; intros p.
  apply allRet_finally.
  apply allRet_bind_any; intros _u; apply allRet_bind_any; intros p'.
  apply allRet_bind with
    (P := fun o => match o with
                   | Some l => l <> [] /\ Forall (src_slot_in_window prefs) l
                   | None => True end).
  - apply allRet_catch; [|intros; exact I].
    apply allRet_bind with (1 := scanCourtsAndSlots_window baseUrl newURL_href p' prefs).
    intros [|s l] Hl; simpl; [exact I|split; [discriminate|exact Hl]].
  - intros [l|] Hl.
    + destruct Hl as [Hn Hw]; simpl; split; [exact Hn|left; exact Hw].
    + apply allRet_bind_any; intros d; simpl.
      split; [discriminate|right; exists d; reflexivity].
Qed.

(** [checkAvailability] never answers with an empty list: it returns
    either the scanned slots, when there is at least one, each in the
    requested hour window and lasting [min_minutes ?? 60] minutes, or
    exactly the one placeholder slot at 19:00 dated by the clock, when
    the scan found nothing or failed. *)
Theorem checkAvailability_slots_or_stub baseUrl user pass newURL_href prefs :
  allRet (fun l => l <> [] /\
                   (Forall (src_slot_in_window prefs) l \/
                    exists today, l = [src_stub baseUrl prefs today]))
    (UbcSrc.checkAvailability baseUrl user pass newURL_href prefs).
Proof. exact (checkAvailability_slots_or_stub_any baseUrl user pass newURL_href prefs). Qed.

(** *** The server of [src/src/index.ts] *)

Lemma substring_all (s : string) : substring 0 (String.length s) s = s.
Proof. induction s as [|c s IH]; simpl; congruence. Qed.

Lemma bearer_split (h : string) : startsWith h "Bearer " = true ->
  h = "Bearer " ++ substring 7 (String.length h - 7) h.
Proof.
  unfold startsWith; intros H.
  do 7 (destruct h as [|? h]; [simpl in H; rewrite ?andb_false_r in H; discriminate H|]).
  cbn [list_ascii_of_string prefixb] in H.
  repeat match goal with
         | H : (_ && _) = true |- _ => apply andb_prop in H as [?E H]
         end.
  repeat match goal with
         | E : Ascii.eqb _ _ = true |- _ => apply Ascii.eqb_eq in E; subst
         end.
  simpl; rewrite Nat.sub_0_r, substring_all; reflexivity.
Qed.

(** [requireBearer] lets a request through exactly when the server has a
    token, the token is not empty, and the [Authorization] header is
    ["Bearer "] followed by that token; a missing header, another
    scheme, an empty token or an unset [BOOKER_GPT_TOKEN] is refused. *)
Theorem requireBearer_iff (authorization BOOKER_GPT_TOKEN : option string) :
  Api.requireBearer authorization BOOKER_GPT_TOKEN = true <->
  exists t, t <> "" /\ BOOKER_GPT_TOKEN = Some t /\ authorization = Some ("Bearer " ++ t).
Proof.
  unfold Api.requireBearer; split.
  - destruct (startsWith (Ubc.or_empty authorization) "Bearer ") eqn:Es; [|discriminate].
    destruct (String.eqb (substring 7 (String.length (Ubc.or_empty authorization) - 7)
                            (Ubc.or_empty authorization)) "") eqn:E0; [discriminate|].
    destruct BOOKER_GPT_TOKEN as [t|]; [|discriminate].
    destruct (String.eqb _ t) eqn:Et; [|discriminate]; intros _.
    apply String.eqb_eq in Et; apply String.eqb_neq in E0.
    destruct authorization as [h|]; [|discriminate].
    exists t; split; [congruence|split; [reflexivity|]].
    simpl in *; rewrite (bearer_split h Es) at 1; rewrite Et; reflexivity.
  - intros [t [Ht [-> ->]]]; unfold Ubc.or_empty; cbv beta iota.
    assert (Es : startsWith ("Bearer " ++ t) "Bearer " = true).
    { unfold startsWith; rewrite list_ascii_of_string_app; apply prefixb_app. }
    rewrite Es.
    assert (Eb : substring 7 (String.length ("Bearer " ++ t) - 7) ("Bearer " ++ t) = t).
    { simpl; rewrite Nat.sub_0_r; apply substring_all. }
    rewrite Eb, String.eqb_refl.
    destruct (String.eqb t "") eqn:E; [apply String.eqb_eq in E; contradiction|reflexivity].
Qed.

Lemma requireBearer_iff_witness :
  Api.requireBearer (Some "Bearer s3cret") (Some "s3cret") = true.
Proof.
  apply (proj2 (requireBearer_iff (Some "Bearer s3cret") (Some "s3cret"))).
  exists "s3cret"; split; [discriminate|split; reflexivity].
Defined.

(** On a request whose body [express.json()] has parsed, the handler
    of [POST /check_now] (with [requireBearer] before it) never fails,
    and its answer is one of three: 401 [Unauthorized], 400
    [Invalid request] with a detail, or 200 with a non-empty list of
    slots. *)
Theorem check_now_answers tok baseUrl user pass newURL_href zodError errString a body :
  never_throws (Api.check_now tok baseUrl user pass newURL_href zodError errString a body) /\
  allRet (fun r =>
            (Api.status r = 401 /\ Api.body r = Api.BError "Unauthorized" None) \/
            (Api.status r = 400 /\ exists d, Api.body r = Api.BError "Invalid request" (Some d)) \/
            (Api.status r = 200 /\ exists l, Api.body r = Api.BSlots l /\ l <> []))
    (Api.check_now tok baseUrl user pass newURL_href zodError errString a body).
Proof.
  unfold Api.check_now; destruct (negb (Api.requireBearer a tok)).
  - split; [exact I|left; split; reflexivity].
  - split; [apply never_throws_catch; intros; exact I|].
    apply allRet_catch; [|intros e; simpl; right; left; split; [reflexivity|eexists; reflexivity]].
    apply allRet_bind_any; intros p.
    eapply allRet_bind.
    + apply checkAvailability_slots_or_stub_any.
    + intros l [Hl _]; simpl; right; right; split; [reflexivity|exists l; split; [reflexivity|exact Hl]].
Qed.

(** [POST /check_now] calls nothing before its checks pass: an
    unauthorised request gets 401, and an authorised one whose body
    fails the schema gets 400 [Invalid request] with the detail of the
    schema error; in both cases the portal is never opened. *)
Theorem check_now_rejects tok baseUrl user pass newURL_href zodError errString a body
    (env : Env) tr :
  (Api.requireBearer a tok = false ->
   run env tr (Api.check_now tok baseUrl user pass newURL_href zodError errString a body) =
   (Ok (Api.mkResponse 401 (Api.BError "Unauthorized" None)), tr)) /\
  (Api.requireBearer a tok = true ->
   match body with Some p => Api.PreferencesSchema p = false | None => True end ->
   run env tr (Api.check_now tok baseUrl user pass newURL_href zodError errString a body) =
   (Ok (Api.mkResponse 400 (Api.BError "Invalid request"
          (Some (Api.errDetail errString (zodError body))))), tr)).
Proof.
  unfold Api.check_now; split; intros Ha; rewrite Ha; [reflexivity|].
  intros Hb; destruct body as [p|]; [rewrite Hb|]; reflexivity.
Qed.

Lemma check_now_rejects_witness :
  run (fun _ _ => inl VUnit) []
    (Api.check_now (Some "s3cret") None "" "" (fun _ _ => inl "") (fun _ => mkErr "bad")
       (fun e => Browser.message e) (Some "Bearer s3cret")
       (Some (mkPreferences None (Some 30) None None None None None))) =
  (Ok (Api.mkResponse 400 (Api.BError "Invalid request" (Some "bad"))), []).
Proof.
  apply (proj2 (check_now_rejects (Some "s3cret") None "" "" (fun _ _ => inl "")
           (fun _ => mkErr "bad") (fun e => Browser.message e) (Some "Bearer s3cret")
           (Some (mkPreferences None (Some 30) None None None None None))
           (fun _ _ => inl VUnit) [])); vm_compute; reflexivity.
Defined.

(** An authorised request with a valid body whose portal fails at once
    (the browser cannot be launched) is answered 400 [Invalid request]
    with the failure's message, after that single call. *)
Theorem check_now_launch_fails tok baseUrl user pass newURL_href zodError errString a p
    (env : Env) tr e :
  Api.requireBearer a tok = true -> Api.PreferencesSchema p = true ->
  env tr Launch = inr e ->
  run env tr (Api.check_now tok baseUrl user pass newURL_href zodError errString a (Some p)) =
  (Ok (Api.mkResponse 400 (Api.BError "Invalid request" (Some (Api.errDetail errString e)))),
   Launch :: tr).
Proof.
  intros Ha Hp He.
  unfold Api.check_now; rewrite Ha, Hp; simpl; rewrite He; reflexivity.
Qed.

Lemma check_now_launch_fails_witness :
  run (fun _ e => match e with Launch => inr (mkErr "browserType.launch: Executable doesn't exist")
                             | _ => inl VUnit end) []
    (Api.check_now (Some "s3cret") None "" "" (fun _ _ => inl "") (fun _ => mkErr "bad")
       (fun e => Browser.message e) (Some "Bearer s3cret") (Some no_preferences)) =
  (Ok (Api.mkResponse 400 (Api.BError "Invalid request"
         (Some "browserType.launch: Executable doesn't exist"))), [Launch]).
Proof.
  exact (check_now_launch_fails (Some "s3cret") None "" "" (fun _ _ => inl "")
           (fun _ => mkErr "bad") (fun e => Browser.message e) (Some "Bearer s3cret") no_preferences
           (fun _ e => match e with Launch => inr (mkErr "browserType.launch: Executable doesn't exist")
                                  | _ => inl VUnit end) [] _
           ltac:(vm_compute; reflexivity) ltac:(vm_compute; reflexivity) eq_refl).
Defined.

(** *** Step 1 of [bookSlot]: the substring search *)




(** *** A requested time without a colon *)

Lemma split_l_none sep l : ~ In sep l -> split_l sep l = [l].
Proof.
  induction l as [|c r IH]; simpl; intros H; [reflexivity|].
  destruct (Ascii.eqb c sep) eqn:E.
  - apply Ascii.eqb_eq in E; subst; exfalso; apply H; left; reflexivity.
  - rewrite IH by (intros I; apply H; right; exact I); reflexivity.
Qed.

Lemma to12h_no_colon s : ~ In ":"%char (list_ascii_of_string s) -> Time.to12h s = None.
Proof. intros H; unfold Time.to12h, split; rewrite split_l_none by exact H; reflexivity. Qed.

(** A [time_24h] with no [:] (such as ["1900"]) has no minute, so
    [minute.toString()] throws in step 1: once the facility page is
    open, [bookSlot]'s pipeline answers with the failure
    ["Booking failed: "] followed by that [TypeError]'s message, and
    makes no further call. *)
Theorem bookPipeline_time_without_colon U u pw rp dec request context page (env : Env) tr p name tr1 :
  ~ In ":"%char (list_ascii_of_string (time_24h request)) ->
  run env tr (Ubc.openFacility U u pw request context page) = (Ok (p, name), tr1) ->
  run env tr (Ubc.bookPipeline U u pw rp dec request context page) =
  (Ok (failure ("Booking failed: " ++ Ubc.minuteTypeError)), tr1).
Proof.
  intros Hc Ho.
  unfold Ubc.bookPipeline, Ubc.bookBody; rewrite run_catch, run_bind, Ho.
  unfold Ubc.bookSteps; cbn [fst snd]; rewrite (to12h_no_colon _ Hc); reflexivity.
Qed.

Lemma bookPipeline_time_without_colon_witness :
  run (fun _ _ => inl VUnit) []
    (Ubc.bookPipeline None (Some "u") (Some "p") (fun _ => inl None) (fun s => inl s)
       (request_at "1900") 2%nat 3%nat) =
  (Ok (failure ("Booking failed: " ++ Ubc.minuteTypeError)),
   snd (run (fun _ _ => inl VUnit) [] (Ubc.openFacility None (Some "u") (Some "p")
          (request_at "1900") 2%nat 3%nat))).
Proof.
  apply (bookPipeline_time_without_colon None (Some "u") (Some "p") (fun _ => inl None)
           (fun s => inl s) (request_at "1900") 2%nat 3%nat (fun _ _ => inl VUnit) [] 3%nat "");
    vm_compute; [intros H; repeat destruct H as [H|H]; discriminate H || contradiction|reflexivity].
Defined.

(** *** The shape of a booking result *)

Lemma retryReserve_shape request page :
  allRet (fun o => match o with Some r => result_shape request r | None => True end)
    (Ubc.retryReserve page).
Proof.
  unfold Ubc.retryReserve.
  apply allRet_bind_any; intros u.
  destruct (negb _); [exact I|].
  repeat (apply allRet_bind_any; intros ?; cbv beta zeta).
  destruct (includes _ _); [|exact I].
  apply allRet_bind_any; intros t.
  destruct (negb _); simpl; split; reflexivity.
Qed.

Ltac shape_step :=
  match goal with
  | |- allRet _ (Ret _) => simpl
  | |- allRet _ (Throw _) => exact I
  | |- allRet _ (bind (Ubc.retryReserve _) _) =>
      eapply allRet_bind; [apply retryReserve_shape|intros [?r|] ?Hr; cbv beta zeta]
  | |- allRet _ (bind _ _) => apply allRet_bind_any; intros ?; cbv beta zeta
  | |- allRet _ (if ?b then _ else _) => destruct b
  | |- allRet _ (match ?x with _ => _ end) => destruct x
  end.

(** Every result [bookSlot] returns has the shape of its [success]
    flag: a success says "Booking completed successfully" and carries
    the booked slot at the requested [time_24h], lasting
    [duration_hours * 60] minutes; a failure carries neither a booked
    slot nor a confirmation number. *)
Theorem bookSlot_result_shape U u pw rp dec request :
  allRet (result_shape request) (Ubc.bookSlot U u pw rp dec request).
Proof.
  unfold Ubc.bookSlot.
  do 3 (apply allRet_bind_any; intros ?).
  apply allRet_finally.
  unfold Ubc.bookPipeline.
  apply allRet_catch; [|intros e; simpl; split; reflexivity].
  unfold Ubc.bookBody; apply allRet_bind_any; intros pc.
  unfold Ubc.bookSteps.
  repeat shape_step;
    try (exact Hr);
    try (split; reflexivity);
    try (split; [reflexivity|eexists; reflexivity]).
Qed.

(** *** Where the login flows type the credentials *)

Definition cred_call (user pass : string) (e : Eff) : Prop :=
  match e with
  | Fill _ l v => (l = Ubc.usernameLocator /\ v = user) \/ (l = Ubc.passwordLocator /\ v = pass)
  | _ => True
  end.

Definition src_cred_call (user pass : string) (e : Eff) : Prop :=
  match e with
  | Fill _ l v => (l = UbcSrc.usernameLocator /\ v = user) \/ (l = UbcSrc.passwordLocator /\ v = pass)
  | _ => True
  end.

Definition fills_only (Q : Eff -> Prop) : Prop := forall e, not_fill e -> Q e.

Section NoFill.
Variable Q : Eff -> Prop.
Hypothesis HQ : fills_only Q.

Lemma firstVisible_calls p cands : allCalls Q (Ubc.firstVisible p cands).
Proof.
  induction cands as [|c cs IH]; cbn [Ubc.firstVisible]; [exact I|].
  apply allCalls_bind.
  - apply allCalls_catch; [|intros; exact I].
    unfold Ubc.isVisible, call_bool; apply allCalls_bind; [apply allCalls_call, HQ; exact I|].
    intros; exact I.
  - intros [|]; [exact I|exact IH].
Qed.

Lemma src_firstVisible_calls p cands : allCalls Q (UbcSrc.firstVisible p cands).
Proof.
  induction cands as [|c cs IH]; cbn [UbcSrc.firstVisible]; [exact I|].
  apply allCalls_bind.
  - apply allCalls_catch; [|intros; exact I].
    unfold Ubc.isVisible, call_bool; apply allCalls_bind; [apply allCalls_call, HQ; exact I|].
    intros; exact I.
  - intros [|]; [exact I|exact IH].
Qed.

Lemma clickMaybeNewPage_calls c p l : allCalls Q (Ubc.clickMaybeNewPage c p l).
Proof.
  unfold Ubc.clickMaybeNewPage, orElse, Ubc.waitForPage, Ubc.click, call_unit.
  apply allCalls_bind.
  - apply allCalls_catch; [|intros; exact I].
    apply allCalls_bind; [apply allCalls_call, HQ; exact I|intros; exact I].
  - intros; apply allCalls_bind; [|intros; exact I].
    apply allCalls_bind; [apply allCalls_call, HQ; exact I|intros; exact I].
Qed.

Lemma call_unit_ok e : not_fill e -> allCalls Q (call_unit e).
Proof.
  intros H; unfold call_unit; apply allCalls_bind; [apply allCalls_call, HQ, H|intros; exact I].
Qed.

Lemma call_str_ok e : not_fill e -> allCalls Q (call_str e).
Proof.
  intros H; unfold call_str; apply allCalls_bind; [apply allCalls_call, HQ, H|intros; exact I].
Qed.

Lemma isVisible_ok p l t : allCalls Q (orElse (Ubc.isVisible p l t) false).
Proof.
  unfold orElse, Ubc.isVisible, call_bool; apply allCalls_catch; [|intros; exact I].
  apply allCalls_bind; [apply allCalls_call, HQ; exact I|intros; exact I].
Qed.

End NoFill.

Lemma fills_only_cred u p : fills_only (cred_call u p).
Proof. intros [] H; simpl in *; tauto. Qed.

Lemma fills_only_src_cred u p : fills_only (src_cred_call u p).
Proof. intros [] H; simpl in *; tauto. Qed.

Lemma fills_only_not_fill : fills_only not_fill.
Proof. intros e H; exact H. Qed.

Ltac login_calls HQ :=
  repeat first
    [ apply isVisible_ok; exact HQ
    | apply clickMaybeNewPage_calls; exact HQ
    | apply firstVisible_calls; exact HQ
    | apply src_firstVisible_calls; exact HQ
    | apply call_unit_ok; [exact HQ|exact I]
    | apply call_str_ok; [exact HQ|exact I]
    | apply allCalls_bind; [|intros ?; cbv beta zeta]
    | progress unfold Ubc.waitForLoadState, Ubc.waitFor, Ubc.click, Ubc.goto, Ubc.url,
                      Ubc.throw
    | exact I
    | match goal with
      | |- allCalls _ (if ?b then _ else _) => destruct b
      | |- allCalls _ (match ?x with _ => _ end) => destruct x
      end ].

Ltac fill_call :=
  apply allCalls_call; simpl; first [left; split; reflexivity|right; split; reflexivity].

Lemma ensureLoggedIn_cred_calls U u pw context page :
  allCalls (cred_call (Ubc.or_empty u) (Ubc.or_empty pw)) (Ubc.ensureLoggedIn U u pw context page).
Proof.
  unfold Ubc.ensureLoggedIn.
  login_calls (fills_only_cred (Ubc.or_empty u) (Ubc.or_empty pw)); fill_call.
Qed.

(** The login flow of [ubc.ts] types [UBC_USER] into the username field
    and [UBC_PASS] into the password field and nothing else anywhere; when
    either is missing or empty it types nothing at all (it throws before
    the form is filled). *)
Theorem ensureLoggedIn_credentials U u pw context page :
  allCalls (cred_call (Ubc.or_empty u) (Ubc.or_empty pw)) (Ubc.ensureLoggedIn U u pw context page) /\
  (Ubc.or_empty u = "" \/ Ubc.or_empty pw = "" ->
   allCalls not_fill (Ubc.ensureLoggedIn U u pw context page)).
Proof.
  split.
  - apply ensureLoggedIn_cred_calls.
  - intros Hc.
    assert (Hb : (String.eqb (Ubc.or_empty u) "" || String.eqb (Ubc.or_empty pw) "") = true).
    { destruct Hc as [-> | ->]; [reflexivity|apply orb_true_r]. }
    unfold Ubc.ensureLoggedIn.
    repeat first
      [ rewrite Hb
      | apply isVisible_ok; exact fills_only_not_fill
      | apply clickMaybeNewPage_calls; exact fills_only_not_fill
      | apply firstVisible_calls; exact fills_only_not_fill
      | apply call_unit_ok; [exact fills_only_not_fill|exact I]
      | apply allCalls_bind; [|intros ?; cbv beta zeta]
      | progress unfold Ubc.waitForLoadState, Ubc.throw
      | exact I
      | match goal with
        | |- allCalls _ (if negb ?b then _ else _) => destruct b
        | |- allCalls _ (match ?x with _ => _ end) => destruct x
        end ].
Qed.

Lemma ensureLoggedIn_credentials_witness :
  allCalls not_fill (Ubc.ensureLoggedIn None (Some "student") None 2%nat 3%nat).
Proof. exact (proj2 (ensureLoggedIn_credentials None (Some "student") None 2%nat 3%nat) (or_intror eq_refl)). Defined.

(** The login flow of [src/src/ubc.ts] types the user name into the
    username field and the password into the password field and nothing
    else anywhere; it has no check for empty credentials. *)
Theorem src_ensureLoggedIn_credentials baseUrl user pass context page :
  allCalls (src_cred_call user pass) (UbcSrc.ensureLoggedIn baseUrl user pass context page).
Proof.
  unfold UbcSrc.ensureLoggedIn.
  login_calls (fills_only_src_cred user pass); fill_call.
Qed.


(** *** Where the booking types the credentials *)

Lemma allCalls_weaken {A} (Q Q' : Eff -> Prop) (m : M A) :
  (forall e, Q e -> Q' e) -> allCalls Q m -> allCalls Q' m.
Proof. intros H; induction m; simpl; intuition. Qed.

Lemma allCalls_finally {A} (Q : Eff -> Prop) (m : M A) (fin : M unit) :
  allCalls Q m -> allCalls Q fin -> allCalls Q (finally m fin).
Proof.
  intros Hm Hf; induction m as [a|e|e k IH]; simpl in *.
  - apply allCalls_bind; [exact Hf|intros; exact I].
  - apply allCalls_bind; [exact Hf|intros; exact I].
  - split; [apply Hm|intros r; apply IH, Hm].
Qed.

Definition book_cred (user pass : string) (e : Eff) : Prop :=
  match e with
  | Fill _ l v =>
      ((l = Ubc.usernameLocator \/ l = Ubc.portalUsername) /\ v = user) \/
      ((l = Ubc.passwordLocator \/ l = Ubc.portalPassword) /\ v = pass)
  | _ => True
  end.

Lemma fills_only_book u p : fills_only (book_cred u p).
Proof. intros [] H; simpl in *; tauto. Qed.

Ltac gen_calls HQ :=
  repeat first
    [ exact I
    | assumption
    | match goal with IH : forall _, _ |- _ => apply IH end
    | apply allCalls_call; apply HQ; exact I
    | apply allCalls_catch; [|intros ?; cbv beta zeta]
    | apply allCalls_bind; [|intros ?; cbv beta zeta]
    | match goal with
      | |- allCalls _ (if ?b then _ else _) => destruct b
      | |- allCalls _ (match ?x with _ => _ end) => destruct x
      end
    | progress unfold orElse, Ubc.throw ].

Ltac book_fill :=
  apply allCalls_call; simpl;
  first [ left; split; [first [left; reflexivity|right; reflexivity]|reflexivity]
        | right; split; [first [left; reflexivity|right; reflexivity]|reflexivity] ].

Section StepCalls.
Variable Q : Eff -> Prop.
Hypothesis HQ : fills_only Q.

Lemma retryReserve_calls p : allCalls Q (Ubc.retryReserve p).
Proof. unfold Ubc.retryReserve; gen_calls HQ. Qed.

Lemma findSpan_calls p t : forall r i, allCalls Q (Ubc.findSpan p t i r).
Proof. induction r; intros i; cbn [Ubc.findSpan]; gen_calls HQ. Qed.

Lemma youLoop_calls p : forall r s i, allCalls Q (Ubc.youLoop p s i r).
Proof. induction r; intros s i; cbn [Ubc.youLoop]; gen_calls HQ. Qed.

Lemma fallbackLoop_calls p : forall r i, allCalls Q (Ubc.fallbackLoop p i r).
Proof. induction r; intros i; cbn [Ubc.fallbackLoop]; gen_calls HQ. Qed.

Lemma findNextButton_calls p : forall sels, allCalls Q (Ubc.findNextButton p sels).
Proof. induction sels; cbn [Ubc.findNextButton]; gen_calls HQ. Qed.

Lemma dumpButtons_calls p l : forall r i, allCalls Q (Ubc.dumpButtons p l i r).
Proof. induction r; intros i; cbn [Ubc.dumpButtons]; gen_calls HQ. Qed.

End StepCalls.

(** [bookSlot] types only the credentials: every field it fills is a
    username field of the login or of the portal, filled with
    [UBC_USER], or a password field of either, filled with [UBC_PASS]. *)
Theorem bookSlot_credentials U u pw rp dec request :
  allCalls (book_cred (Ubc.or_empty u) (Ubc.or_empty pw)) (Ubc.bookSlot U u pw rp dec request).
Proof.
  pose proof (fills_only_book (Ubc.or_empty u) (Ubc.or_empty pw)) as HQ.
  unfold Ubc.bookSlot.
  apply allCalls_bind; [gen_calls HQ|intros b; cbv beta].
  apply allCalls_bind; [gen_calls HQ|intros c; cbv beta].
  apply allCalls_bind; [gen_calls HQ|intros p; cbv beta].
  apply allCalls_finally; [|gen_calls HQ].
  unfold Ubc.bookPipeline; apply allCalls_catch; [|intros; exact I].
  unfold Ubc.bookBody; apply allCalls_bind.
  - unfold Ubc.openFacility.
    apply allCalls_bind; [gen_calls HQ|intros ?; cbv beta].
    apply allCalls_bind.
    + eapply allCalls_weaken; [|apply ensureLoggedIn_cred_calls].
      intros [] H; simpl in *; tauto.
    + intros p'; cbv beta zeta; gen_calls HQ.
  - intros pc; unfold Ubc.bookSteps.
    repeat first
      [ apply retryReserve_calls; exact HQ
      | apply findSpan_calls; exact HQ
      | apply youLoop_calls; exact HQ
      | apply fallbackLoop_calls; exact HQ
      | apply findNextButton_calls; exact HQ
      | apply dumpButtons_calls; exact HQ
      | progress unfold Ubc.reauthenticate
      | exact I
      | apply allCalls_call; apply HQ; exact I
      | book_fill
      | apply allCalls_catch; [|intros ?; cbv beta zeta]
      | apply allCalls_bind; [|intros ?; cbv beta zeta]
      | match goal with
        | |- allCalls _ (if ?b then _ else _) => destruct b
        | |- allCalls _ (match ?x with _ => _ end) => destruct x
        end
      | progress unfold orElse, Ubc.throw, Ubc.lift ].
Qed.

(** *** Durations compose *)

(** On [HH:MM] texts (hours below 24, minutes below 60), where the
    source's double arithmetic is exact, [durationMinutes] adds up along
    consecutive ranges and changes sign with the direction: the duration
    from [a] to [c] is the duration from [a] to [b] plus the duration
    from [b] to [c], and the duration from [b] to [a] is the opposite of
    the one from [a] to [b]. *)
Theorem durationMinutes_additive h1 m1 h2 m2 h3 m3 x y :
  (h1 < 24)%nat -> (m1 < 60)%nat -> (h2 < 24)%nat -> (m2 < 60)%nat ->
  (h3 < 24)%nat -> (m3 < 60)%nat ->
  Time.durationMinutes (fmt24 h1 m1) (fmt24 h2 m2) = Some x ->
  Time.durationMinutes (fmt24 h2 m2) (fmt24 h3 m3) = Some y ->
  Time.durationMinutes (fmt24 h1 m1) (fmt24 h3 m3) = Some (x + y) /\
  Time.durationMinutes (fmt24 h2 m2) (fmt24 h1 m1) = Some (- x).
Proof.
  intros H1 M1 H2 M2 H3 M3 Ex Ey.
  rewrite durationMinutes_fmt24 in Ex, Ey by lia.
  rewrite !durationMinutes_fmt24 by lia.
  injection Ex as <-; injection Ey as <-; split; f_equal; lia.
Qed.

Lemma durationMinutes_additive_witness :
  Time.durationMinutes "19:00" "20:30" = Some 90 /\ Time.durationMinutes "20:30" "21:00" = Some 30 /\
  Time.durationMinutes "19:00" "21:00" = Some (90 + 30) /\ Time.durationMinutes "20:30" "19:00" = Some (- 90).
Proof.
  split; [vm_compute; reflexivity|split; [vm_compute; reflexivity|]].
  exact (durationMinutes_additive 19 0 20 30 21 0 90 30 ltac:(lia) ltac:(lia) ltac:(lia)
           ltac:(lia) ltac:(lia) ltac:(lia) ltac:(vm_compute; reflexivity) ltac:(vm_compute; reflexivity)).
Defined.

End Extras.
